(** * ConfigValueRangeChecker: a shallow embedding of [main.py]

    The development models [ConfigValueRangeChecker.validate_config] of
    [src/main.py]: the decoded configuration document and rule list are
    dynamically typed Python values, logging is an explicit list of
    records, the local variable [is_valid] is explicit state, and the
    exceptions and the [continue] statements of the loop body are an
    explicit control outcome. *)

From Stdlib Require Import ZArith List String Bool Lia Permutation.
From Stdlib Require Import SpecFloat QArith Qpower.
Import ListNotations.

Local Open Scope string_scope.
Local Open Scope Z_scope.
Local Open Scope list_scope.
Local Set Warnings "-register-all".

(** ** Python values

    The values [json.load] and [yaml.safe_load] produce: [None], [bool],
    [int], [float], [str], [list] and [dict].  Integers are unbounded,
    floats are IEEE-754 values ([spec_float] of the Standard Library).  A
    [dict] is kept as the association list of its items, keys being
    strings as in every JSON object; [dict_lookup] below reads the first
    binding of a key. *)

Inductive pyval : Type :=
| VNone
| VBool (b : bool)
| VInt (z : Z)
| VFloat (f : spec_float)
| VStr (s : string)
| VList (l : list pyval)
| VDict (d : list (string * pyval)).

(** [type(v).__name__] *)
Definition type_name (v : pyval) : string :=
  match v with
  | VNone => "NoneType"
  | VBool _ => "bool"
  | VInt _ => "int"
  | VFloat _ => "float"
  | VStr _ => "str"
  | VList _ => "list"
  | VDict _ => "dict"
  end.

(** The classes named in the [isinstance] tests of the source. *)
Inductive pyclass : Type := Cint | Cfloat | Cstr | Cbool | Clist.

(** [isinstance(v, c)]: in Python [bool] is a subclass of [int], so a
    [bool] is an instance of [int]. *)
Definition isinstance1 (v : pyval) (c : pyclass) : bool :=
  match c, v with
  | Cint, VInt _ => true
  | Cint, VBool _ => true
  | Cfloat, VFloat _ => true
  | Cstr, VStr _ => true
  | Cbool, VBool _ => true
  | Clist, VList _ => true
  | _, _ => false
  end.

(** [isinstance(v, (c1, ..., cn))] *)
Definition isinstance (v : pyval) (cs : list pyclass) : bool :=
  existsb (isinstance1 v) cs.

(** Truth value of an object, as [not x] and [if x] test it. *)
Definition truthy (v : pyval) : bool :=
  match v with
  | VNone => false
  | VBool b => b
  | VInt z => negb (z =? 0)
  | VFloat f =>
      match f with
      | S754_zero _ => false
      | _ => true
      end
  | VStr s => negb (String.eqb s "")
  | VList l => match l with [] => false | _ => true end
  | VDict d => match d with [] => false | _ => true end
  end.

(** [x is None] and [x is not None] *)
Definition is_None (v : pyval) : bool :=
  match v with VNone => true | _ => false end.

(** [x == 'lit']: a string equals only the same string. *)
Definition eq_str (v : pyval) (lit : string) : bool :=
  match v with
  | VStr s => String.eqb s lit
  | _ => false
  end.

(** [x in ('a', 'b', ...)] *)
Definition in_strs (v : pyval) (lits : list string) : bool :=
  existsb (eq_str v) lits.

(** ** Exceptions *)

Inductive exn : Type :=
| AttributeError (tn attr : string)
    (* '<tn>' object has no attribute '<attr>' *)
| TypeError_unhashable (tn : string)
    (* unhashable type: '<tn>' *)
| TypeError_not_iterable (tn : string)
    (* '<tn>' object is not iterable *)
| TypeError_not_supported (op tl tr : string)
    (* '<op>' not supported between instances of '<tl>' and '<tr>' *)
| ValueError_str_digits (limit : Z).
    (* Exceeds the limit (<limit> digits) for integer string conversion *)

(** ** Dictionaries *)

Fixpoint dict_lookup (d : list (string * pyval)) (k : string) : option pyval :=
  match d with
  | [] => None
  | (k', v) :: d' => if String.eqb k' k then Some v else dict_lookup d' k
  end.

(** The dictionary without key [k] *)
Fixpoint dict_remove (d : list (string * pyval)) (k : string)
  : list (string * pyval) :=
  match d with
  | [] => []
  | (k', v) :: d' =>
      if String.eqb k' k then dict_remove d' k else (k', v) :: dict_remove d' k
  end.

(** [d.get(k)] with a string key: [None] when the key is absent. *)
Definition dict_get (d : list (string * pyval)) (k : string) : pyval :=
  match dict_lookup d k with
  | Some v => v
  | None => VNone
  end.

(** ** Numbers and their order

    [value < bound] and [value > bound] on [bool], [int] and [float]
    operands compare the exact mathematical values (an [int] is never
    rounded to a [float]); every comparison with a NaN is false. *)

Inductive xnum : Type :=
| XNan
| XInf (neg : bool)
| XFin (m e : Z).   (* the number m * 2^e *)

Definition xnum_of_float (f : spec_float) : xnum :=
  match f with
  | S754_zero _ => XFin 0 0
  | S754_infinity s => XInf s
  | S754_nan => XNan
  | S754_finite s m e => XFin (if s then Z.neg m else Z.pos m) e
  end.

Definition to_xnum (v : pyval) : option xnum :=
  match v with
  | VBool b => Some (XFin (Z.b2z b) 0)
  | VInt z => Some (XFin z 0)
  | VFloat f => Some (xnum_of_float f)
  | _ => None
  end.

Definition xfin_compare (m1 e1 m2 e2 : Z) : comparison :=
  let e := Z.min e1 e2 in
  Z.compare (m1 * 2 ^ (e1 - e)) (m2 * 2 ^ (e2 - e)).

Definition xnum_ltb (a b : xnum) : bool :=
  match a, b with
  | XNan, _ | _, XNan => false
  | XInf true, XInf true => false
  | XInf true, _ => true
  | _, XInf true => false
  | XInf false, _ => false
  | _, XInf false => true
  | XFin m1 e1, XFin m2 e2 =>
      match xfin_compare m1 e1 m2 e2 with Lt => true | _ => false end
  end.

(** The rational number [m * 2^e], to state what the order is. *)
Definition xfin_value (m e : Z) : Q := (inject_Z m * Qpower 2 e)%Q.

(** ** Log records

    A record is a level and a message; a message is the f-string of the
    source, kept as its template and the values interpolated in it. *)

Inductive level : Type := INFO | WARNING | ERROR.

Inductive message : Type :=
| ConfigNotLoaded
    (* "Configuration data is not loaded." *)
| RulesNotLoaded
    (* "Rules data is not loaded." *)
| ParameterNotFound (parameter : pyval)
    (* "Parameter '{parameter}' not found in configuration." *)
| IncorrectType (parameter : pyval) (expected actual : string)
    (* "Parameter '{parameter}' has incorrect type. Expected {expected},
        got {type(value).__name__}." *)
| LessThanMinimum (parameter value min_value : pyval)
    (* "Parameter '{parameter}' is out of range. Value {value} is less
        than minimum {min_value}." *)
| GreaterThanMaximum (parameter value max_value : pyval)
    (* "Parameter '{parameter}' is out of range. Value {value} is greater
        than maximum {max_value}." *)
| ErrorValidating (parameter : pyval) (e : exn).
    (* "Error validating parameter '{parameter}': {e}" *)

Definition record : Type := level * message.

(** ** The monad of the loop body

    The state is the local variable [is_valid] and the log written so
    far.  A statement finishes normally, executes [continue], or raises. *)

Record state : Type := mkState { is_valid : bool; log : list record }.

Inductive ctl (A : Type) : Type :=
| Normal (a : A)
| Continue
| Raise (e : exn).
Arguments Normal {A} a.
Arguments Continue {A}.
Arguments Raise {A} e.

Definition M (A : Type) : Type := state -> ctl A * state.

Definition ret {A} (a : A) : M A := fun s => (Normal a, s).

Definition bind {A B} (m : M A) (k : A -> M B) : M B :=
  fun s =>
    match m s with
    | (Normal a, s') => k a s'
    | (Continue, s') => (Continue, s')
    | (Raise e, s') => (Raise e, s')
    end.

Notation "x <- m ;; k" := (bind m (fun x => k))
  (at level 61, m at next level, right associativity).
Notation "m ;;; k" := (bind m (fun _ => k))
  (at level 61, right associativity).

Definition raise {A} (e : exn) : M A := fun s => (Raise e, s).

Definition continue {A} : M A := fun s => (Continue, s).

Definition logging (lv : level) (msg : message) : M unit :=
  fun s => (Normal tt, mkState (is_valid s) (log s ++ [(lv, msg)])).

Definition logging_warning := logging WARNING.
Definition logging_error := logging ERROR.

(** [is_valid = False] *)
Definition set_invalid : M unit :=
  fun s => (Normal tt, mkState false (log s)).

(** [logging.error(msg)] followed by [is_valid = False]: the source
    writes the two statements together at every error. *)
Definition report_error (msg : message) : M unit :=
  logging_error msg ;;;
  set_invalid.

(** [try: body  except Exception as e: handler e] *)
Definition try_except {A} (body : M A) (handler : exn -> M A) : M A :=
  fun s =>
    match body s with
    | (Raise e, s') => handler e s'
    | r => r
    end.

(** ** Operations that may raise *)

(** [rule.get(key)]: only a [dict] has the method. *)
Definition rule_get (rule : pyval) (key : string) : M pyval :=
  match rule with
  | VDict d => ret (dict_get d key)
  | _ => raise (AttributeError (type_name rule) "get")
  end.

(** [self.config_data.get(parameter)]: the attribute is looked up first,
    then the key is hashed; the keys of the document are strings, so a
    hashable key that is not a string is bound to nothing. *)
Definition config_get (config_data parameter : pyval) : M pyval :=
  match config_data with
  | VDict d =>
      match parameter with
      | VStr k => ret (dict_get d k)
      | VList _ | VDict _ =>
          raise (TypeError_unhashable (type_name parameter))
      | _ => ret VNone
      end
  | _ => raise (AttributeError (type_name config_data) "get")
  end.

(** [a < b] and [a > b].  The left operand is a [bool], [int] or [float]
    wherever the source compares (see [range_operand_is_number]); a bound
    that is not a number raises [TypeError]. *)
Definition py_lt (a b : pyval) : M bool :=
  match to_xnum a, to_xnum b with
  | Some x, Some y => ret (xnum_ltb x y)
  | _, _ => raise (TypeError_not_supported "<" (type_name a) (type_name b))
  end.

Definition py_gt (a b : pyval) : M bool :=
  match to_xnum a, to_xnum b with
  | Some x, Some y => ret (xnum_ltb y x)
  | _, _ => raise (TypeError_not_supported ">" (type_name a) (type_name b))
  end.

(** [c and e]: [e] is evaluated only when [c] holds. *)
Definition and_then (c : bool) (e : M bool) : M bool :=
  if c then e else ret false.

(** ** [validate_config] *)

(** The block under each failed [isinstance] test (lines 117-119 and
    its four copies). *)
Definition incorrect_type (parameter value : pyval) (expected : string)
  : M unit :=
  report_error (IncorrectType parameter expected (type_name value)) ;;;
  continue.

(** Lines 115-139, [# Type validation]. *)
Definition type_validation (parameter data_type value : pyval) : M unit :=
  if eq_str data_type "integer" then
    if negb (isinstance value [Cint])
    then incorrect_type parameter value "integer" else ret tt
  else if eq_str data_type "float" then
    if negb (isinstance value [Cint; Cfloat])
    then incorrect_type parameter value "float" else ret tt
  else if eq_str data_type "string" then
    if negb (isinstance value [Cstr])
    then incorrect_type parameter value "string" else ret tt
  else if eq_str data_type "boolean" then
    if negb (isinstance value [Cbool])
    then incorrect_type parameter value "boolean" else ret tt
  else if eq_str data_type "list" then
    if negb (isinstance value [Clist])
    then incorrect_type parameter value "list" else ret tt
  else ret tt.

(** Lines 142-151, [# Range validation]. *)
Definition range_validation
  (parameter data_type value min_value max_value : pyval) : M unit :=
  if in_strs data_type ["integer"; "float"] then
    below <- and_then (negb (is_None min_value)) (py_lt value min_value) ;;
    (if below
     then report_error (LessThanMinimum parameter value min_value)
     else ret tt) ;;;
    above <- and_then (negb (is_None max_value)) (py_gt value max_value) ;;
    (if above
     then report_error (GreaterThanMaximum parameter value max_value)
     else ret tt)
  else if eq_str data_type "string" then ret tt
  else ret tt.

(** Lines 108-151, the body of the [try]. *)
Definition try_body
  (config_data parameter data_type min_value max_value : pyval) : M unit :=
  value <- config_get config_data parameter ;;
  (if is_None value
   then logging_warning (ParameterNotFound parameter) ;;; continue
   else ret tt) ;;;
  type_validation parameter data_type value ;;;
  range_validation parameter data_type value min_value max_value.

(** Lines 102-154, one iteration of the loop.  The four [rule.get] calls
    are outside the [try]. *)
Definition validate_rule (config_data rule : pyval) : M unit :=
  parameter <- rule_get rule "parameter" ;;
  data_type <- rule_get rule "type" ;;
  min_value <- rule_get rule "min" ;;
  max_value <- rule_get rule "max" ;;
  try_except
    (try_body config_data parameter data_type min_value max_value)
    (fun e => report_error (ErrorValidating parameter e)).

(** [for rule in rules: ...]: [continue] and the normal end of the body
    both go to the next rule; an exception leaves the loop. *)
Fixpoint for_rules (config_data : pyval) (rules : list pyval) : M unit :=
  match rules with
  | [] => ret tt
  | rule :: rest =>
      fun s =>
        match validate_rule config_data rule s with
        | (Raise e, s') => (Raise e, s')
        | (_, s') => for_rules config_data rest s'
        end
  end.

Fixpoint chars (s : string) : list pyval :=
  match s with
  | EmptyString => []
  | String c s' => VStr (String c EmptyString) :: chars s'
  end.

(** What [for rule in x] iterates over: the items of a list, the keys of
    a dict, the characters of a string; other values are not iterable. *)
Definition py_iter (v : pyval) : exn + list pyval :=
  match v with
  | VList l => inr l
  | VDict d => inr (map (fun kv => VStr (fst kv)) d)
  | VStr s => inr (chars s)
  | _ => inl (TypeError_not_iterable (type_name v))
  end.

(** What a call of [validate_config] does: it returns a verdict or
    raises, and has written a log. *)
Inductive outcome : Type :=
| Returned (verdict : bool) (records : list record)
| Raised (e : exn) (records : list record).

Definition initial : state := mkState true [].

(** Lines 86-156. *)
Definition validate_config (config_data rules_data : pyval) : outcome :=
  if negb (truthy config_data) then
    Returned false [(ERROR, ConfigNotLoaded)]
  else if negb (truthy rules_data) then
    Returned false [(ERROR, RulesNotLoaded)]
  else
    match py_iter rules_data with
    | inl e => Raised e []
    | inr rules =>
        match for_rules config_data rules initial with
        | (Raise e, s) => Raised e (log s)
        | (_, s) => Returned (is_valid s) (log s)
        end
    end.

(** ** What one rule does on its own

    The verdict and the records of one iteration started from the initial
    state. *)

Definition rule_ok (config_data rule : pyval) : bool :=
  is_valid (snd (validate_rule config_data rule initial)).

Definition rule_log (config_data rule : pyval) : list record :=
  log (snd (validate_rule config_data rule initial)).

Definition is_dict (v : pyval) : bool :=
  match v with VDict _ => true | _ => false end.

Definition is_error (r : record) : bool :=
  match fst r with ERROR => true | _ => false end.

Definition is_warning (r : record) : bool :=
  match fst r with WARNING => true | _ => false end.

(** [extend s d]: the state [s] after a statement that, started from
    [initial], ends in [d]. *)
Definition extend (s d : state) : state :=
  mkState (is_valid s && is_valid d) (log s ++ log d).

Definition framed {A} (m : M A) : Prop :=
  forall s, m s = (fst (m initial), extend s (snd (m initial))).

(** A state is coherent when [is_valid] is true exactly when no record
    of level [ERROR] has been written. *)
Definition coherent (s : state) : Prop :=
  is_valid s = negb (existsb is_error (log s)).

Definition keeps_coherent {A} (m : M A) : Prop :=
  forall s, coherent s -> coherent (snd (m s)).

(** The parameter of a rule record and its binding in the document,
    for stating properties. *)
Definition parameter_of (rule : pyval) : pyval :=
  match rule with VDict r => dict_get r "parameter" | _ => VNone end.

(** The value the document binds to the rule's parameter, if any. *)
Definition bound_in (config_data rule : pyval) : option pyval :=
  match config_data, parameter_of rule with
  | VDict d, VStr p => dict_lookup d p
  | _, _ => None
  end.

(** A rule record: a mapping whose [parameter] is a string. *)
Definition rule_record (rule : pyval) : bool :=
  is_dict rule && match parameter_of rule with VStr _ => true | _ => false end.

(** [value < min_value] and [value > max_value] on numbers; false when
    an operand is not a number. *)
Definition below (value min_value : pyval) : bool :=
  match to_xnum value, to_xnum min_value with
  | Some x, Some y => xnum_ltb x y
  | _, _ => false
  end.

Definition above (value max_value : pyval) : bool :=
  match to_xnum value, to_xnum max_value with
  | Some x, Some y => xnum_ltb y x
  | _, _ => false
  end.

(** A bound that is absent ([None]) or a number. *)
Definition is_bound (b : pyval) : bool :=
  match b with
  | VNone | VBool _ | VInt _ | VFloat _ => true
  | _ => false
  end.

(** ** Sample rules and documents

    The rules of the usage example at the end of [main.py] and of the
    scenarios. *)

Definition port_rule : pyval :=
  VDict [("parameter", VStr "port"); ("type", VStr "integer");
         ("min", VInt 1024); ("max", VInt 65535)].

Definition name_rule : pyval :=
  VDict [("parameter", VStr "name"); ("type", VStr "string")].

Definition enabled_rule : pyval :=
  VDict [("parameter", VStr "enabled"); ("type", VStr "boolean")].

(** An integer rule on a parameter the document binds to a boolean. *)
Definition enabled_as_integer : pyval :=
  VDict [("parameter", VStr "enabled"); ("type", VStr "integer")].

(** A float rule whose minimum exceeds its maximum. *)
Definition crossed_rule : pyval :=
  VDict [("parameter", VStr "ratio"); ("type", VStr "float");
         ("min", VInt 10); ("max", VInt 1)].

(** A rule whose minimum is not a number. *)
Definition faulty_rule : pyval :=
  VDict [("parameter", VStr "port"); ("type", VStr "integer");
         ("min", VStr "low")].

(** A rule with a type name the checker does not know. *)
Definition port_number_rule : pyval :=
  VDict [("parameter", VStr "port"); ("type", VStr "number");
         ("min", VInt 1024); ("max", VInt 65535)].

Definition empty_document : pyval := VDict [].

Definition port_document : pyval := VDict [("port", VInt 8080)].

(** ** Loading and the command line

    [load_config], [load_rules] and [main] read files and decode them.
    The file system and the decoders are outside the repository, so
    they are parameters: a [world] gives, for each path, what
    [os.path.exists], [open], [json.load], [yaml.safe_load] and
    [os.path.splitext(path)[1].lower()] answer.  An operation of the
    world either gives its result or raises an exception, kept as its
    class and its text. *)

Inductive load_error : Type :=
| FileNotFoundError (text : string)
| JSONDecodeError (text : string)
| YAMLError (text : string)
| OtherException (text : string).

Record world : Type := mkWorld {
  path_exists : string -> bool;
  open_read : string -> load_error + string;
  json_load : string -> load_error + pyval;
  yaml_safe_load : string -> load_error + pyval;
  file_extension : string -> string
}.

(** What the loader and [main] log, besides the records of
    [validate_config]. *)
Inductive cli_message : Type :=
| UnsupportedFormat (extension : string)
    (* "Unsupported configuration file format: {file_extension}" *)
| ConfigurationLoaded (path : string)
    (* "Configuration loaded from {self.config_file}" *)
| ConfigurationFileNotFound (path : string)
    (* "Configuration file not found: {self.config_file}" *)
| ConfigurationJSONError (e : string)
    (* "Error decoding JSON in configuration file: {e}" *)
| ConfigurationYAMLError (e : string)
    (* "Error decoding YAML in configuration file: {e}" *)
| ConfigurationLoadError (e : string)
    (* "Error loading configuration file: {e}" *)
| RulesLoaded (path : string)
    (* "Rules loaded from {self.rules_file}" *)
| RulesFileNotFound (path : string)
    (* "Rules file not found: {self.rules_file}" *)
| RulesJSONError (e : string)
    (* "Error decoding JSON in rules file: {e}" *)
| RulesLoadError (e : string)
    (* "Error loading rules file: {e}" *)
| ConfigFileMissing (path : string)
    (* "Config file not found: {args.config_file}", in [main] *)
| RulesFileMissing (path : string)
    (* "Rules file not found: {args.rules_file}", in [main] *)
| ConfigurationValid
    (* "Configuration is valid." *)
| ConfigurationInvalid
    (* "Configuration is invalid." *)
| Validation (m : message).
    (* a record of [validate_config] *)

Definition cli_record : Type := level * cli_message.

Definition lift_record (r : record) : cli_record :=
  (fst r, Validation (snd r)).

(** The attributes of a [ConfigValueRangeChecker]. *)
Record checker : Type := mkChecker {
  config_file : string;
  rules_file : string;
  config_data : pyval;
  rules_data : pyval
}.

(** Lines 17-28, [__init__]. *)
Definition __init__ (config_file rules_file : string) : checker :=
  mkChecker config_file rules_file VNone VNone.

Definition set_config_data (c : checker) (v : pyval) : checker :=
  mkChecker (config_file c) (rules_file c) v (rules_data c).

Definition set_rules_data (c : checker) (v : pyval) : checker :=
  mkChecker (config_file c) (rules_file c) (config_data c) v.

(** The [except] clauses of [load_config], lines 50-61, in the order
    Python tries them. *)
Definition load_config_handler (c : checker) (e : load_error) : cli_record :=
  match e with
  | FileNotFoundError _ => (ERROR, ConfigurationFileNotFound (config_file c))
  | JSONDecodeError text => (ERROR, ConfigurationJSONError text)
  | YAMLError text => (ERROR, ConfigurationYAMLError text)
  | OtherException text => (ERROR, ConfigurationLoadError text)
  end.

(** Lines 30-61: the result, the checker afterwards and the records
    written. *)
Definition load_config (w : world) (c : checker)
  : bool * checker * list cli_record :=
  match open_read w (config_file c) with
  | inl e => (false, c, [load_config_handler c e])
  | inr f =>
      let ext := file_extension w (config_file c) in
      if String.eqb ext ".json" then
        match json_load w f with
        | inl e => (false, c, [load_config_handler c e])
        | inr v =>
            (true, set_config_data c v,
             [(INFO, ConfigurationLoaded (config_file c))])
        end
      else if String.eqb ext ".yaml" || String.eqb ext ".yml" then
        match yaml_safe_load w f with
        | inl e => (false, c, [load_config_handler c e])
        | inr v =>
            (true, set_config_data c v,
             [(INFO, ConfigurationLoaded (config_file c))])
        end
      else (false, c, [(ERROR, UnsupportedFormat ext)])
  end.

(** The [except] clauses of [load_rules], lines 76-84: there is no
    clause for [yaml.YAMLError]. *)
Definition load_rules_handler (c : checker) (e : load_error) : cli_record :=
  match e with
  | FileNotFoundError _ => (ERROR, RulesFileNotFound (rules_file c))
  | JSONDecodeError text => (ERROR, RulesJSONError text)
  | YAMLError text => (ERROR, RulesLoadError text)
  | OtherException text => (ERROR, RulesLoadError text)
  end.

(** Lines 64-84. *)
Definition load_rules (w : world) (c : checker)
  : bool * checker * list cli_record :=
  match open_read w (rules_file c) with
  | inl e => (false, c, [load_rules_handler c e])
  | inr f =>
      match json_load w f with
      | inl e => (false, c, [load_rules_handler c e])
      | inr v =>
          (true, set_rules_data c v, [(INFO, RulesLoaded (rules_file c))])
      end
  end.

(** The method [validate_config] on a checker. *)
Definition checker_validate (c : checker) : outcome :=
  validate_config (config_data c) (rules_data c).

(** How a run of [main] ends: [sys.exit(code)], or an exception that
    nothing catches. *)
Inductive ending : Type :=
| Exit (code : Z) (records : list cli_record)
| Uncaught (e : exn) (records : list cli_record).

(** The parsed command line, [args.config_file] and [args.rules_file]. *)
Record arguments : Type := mkArguments {
  arg_config_file : string;
  arg_rules_file : string
}.

(** Lines 174-203, after [parser.parse_args()]. *)
Definition main (w : world) (args : arguments) : ending :=
  if negb (path_exists w (arg_config_file args)) then
    Exit 1 [(ERROR, ConfigFileMissing (arg_config_file args))]
  else if negb (path_exists w (arg_rules_file args)) then
    Exit 1 [(ERROR, RulesFileMissing (arg_rules_file args))]
  else
    let c0 := __init__ (arg_config_file args) (arg_rules_file args) in
    let '(loaded, c1, l1) := load_config w c0 in
    if negb loaded then Exit 1 l1
    else
      let '(loaded', c2, l2) := load_rules w c1 in
      if negb loaded' then Exit 1 (l1 ++ l2)
      else
        match checker_validate c2 with
        | Returned true l3 =>
            Exit 0 (l1 ++ l2 ++ map lift_record l3
                    ++ [(INFO, ConfigurationValid)])
        | Returned false l3 =>
            Exit 1 (l1 ++ l2 ++ map lift_record l3
                    ++ [(ERROR, ConfigurationInvalid)])
        | Raised e l3 => Uncaught e (l1 ++ l2 ++ map lift_record l3)
        end.

Definition is_cli_error (r : cli_record) : bool :=
  match fst r with ERROR => true | _ => false end.

Definition is_validation (r : cli_record) : bool :=
  match snd r with Validation _ => true | _ => false end.

(** For stating properties: what it takes for the configuration file
    of [path] to decode to
    [v]: it opens, and the decoder its extension selects accepts it. *)
Definition config_decodes (w : world) (path : string) (v : pyval) : Prop :=
  exists f,
    open_read w path = inr f
    /\ ((file_extension w path = ".json" /\ json_load w f = inr v)
        \/ ((file_extension w path = ".yaml"
             \/ file_extension w path = ".yml")
            /\ yaml_safe_load w f = inr v)).

Definition rules_decode (w : world) (path : string) (v : pyval) : Prop :=
  exists f, open_read w path = inr f /\ json_load w f = inr v.

(** The records a run of [main] writes around those of
    [validate_config], when both files are loaded. *)
Definition loaded_records (args : arguments) : list cli_record :=
  [(INFO, ConfigurationLoaded (arg_config_file args));
   (INFO, RulesLoaded (arg_rules_file args))].

(** ** The limit on integer string conversion

    Every f-string of [validate_config] converts the values it
    interpolates with [str].  Since CPython 3.11, [str] of an [int] of
    more than [sys.int_max_str_digits] decimal digits (4300 unless
    changed, 0 for no limit) raises [ValueError]; such an [int] can come
    from a hexadecimal literal of a YAML document.  The definitions
    above take the conversion as total, which is the interpreter with
    the limit disabled; the module [Limited] below is the same code with
    the limit as a parameter. *)

(** [str(v)] succeeds under a positive limit: no integer inside [v] has
    more than [limit] digits ([repr] of a list or a mapping converts
    its items). *)
Fixpoint within_limit (limit : Z) (v : pyval) : bool :=
  match v with
  | VInt z => Z.abs z <? 10 ^ limit
  | VList l => forallb (within_limit limit) l
  | VDict d =>
      (fix values (d : list (string * pyval)) : bool :=
         match d with
         | [] => true
         | (_, x) :: d' => within_limit limit x && values d'
         end) d
  | _ => true
  end.

Definition formattable (limit : Z) (v : pyval) : bool :=
  (limit <=? 0) || within_limit limit v.

(** The f-string of a message can be built: every value it
    interpolates can be converted ([type(value).__name__] and [{e}] are
    always strings). *)
Definition format_ok (limit : Z) (msg : message) : bool :=
  match msg with
  | ConfigNotLoaded | RulesNotLoaded => true
  | ParameterNotFound parameter => formattable limit parameter
  | IncorrectType parameter _ _ => formattable limit parameter
  | LessThanMinimum parameter value min_value =>
      formattable limit parameter && formattable limit value
      && formattable limit min_value
  | GreaterThanMaximum parameter value max_value =>
      formattable limit parameter && formattable limit value
      && formattable limit max_value
  | ErrorValidating parameter _ => formattable limit parameter
  end.

(** [logging.warning(f"...")] and [logging.error(f"...")]: the f-string
    is built first, and raises when it cannot be. *)
Definition checked_logging (limit : Z) (lv : level) (msg : message) : M unit :=
  if format_ok limit msg then logging lv msg
  else raise (ValueError_str_digits limit).

Module Limited.

Section Limit.

Variable max_str_digits : Z.

Definition logging_warning := checked_logging max_str_digits WARNING.
Definition logging_error := checked_logging max_str_digits ERROR.

Definition report_error (msg : message) : M unit :=
  logging_error msg ;;;
  set_invalid.

Definition incorrect_type (parameter value : pyval) (expected : string)
  : M unit :=
  report_error (IncorrectType parameter expected (type_name value)) ;;;
  continue.

(** Lines 115-139. *)
Definition type_validation (parameter data_type value : pyval) : M unit :=
  if eq_str data_type "integer" then
    if negb (isinstance value [Cint])
    then incorrect_type parameter value "integer" else ret tt
  else if eq_str data_type "float" then
    if negb (isinstance value [Cint; Cfloat])
    then incorrect_type parameter value "float" else ret tt
  else if eq_str data_type "string" then
    if negb (isinstance value [Cstr])
    then incorrect_type parameter value "string" else ret tt
  else if eq_str data_type "boolean" then
    if negb (isinstance value [Cbool])
    then incorrect_type parameter value "boolean" else ret tt
  else if eq_str data_type "list" then
    if negb (isinstance value [Clist])
    then incorrect_type parameter value "list" else ret tt
  else ret tt.

(** Lines 142-151. *)
Definition range_validation
  (parameter data_type value min_value max_value : pyval) : M unit :=
  if in_strs data_type ["integer"; "float"] then
    below <- and_then (negb (is_None min_value)) (py_lt value min_value) ;;
    (if below
     then report_error (LessThanMinimum parameter value min_value)
     else ret tt) ;;;
    above <- and_then (negb (is_None max_value)) (py_gt value max_value) ;;
    (if above
     then report_error (GreaterThanMaximum parameter value max_value)
     else ret tt)
  else if eq_str data_type "string" then ret tt
  else ret tt.

(** Lines 108-151. *)
Definition try_body
  (config_data parameter data_type min_value max_value : pyval) : M unit :=
  value <- config_get config_data parameter ;;
  (if is_None value
   then logging_warning (ParameterNotFound parameter) ;;; continue
   else ret tt) ;;;
  type_validation parameter data_type value ;;;
  range_validation parameter data_type value min_value max_value.

(** Lines 102-154.  An exception raised by the f-string of the handler
    (line 153) is raised inside the [except] clause: nothing catches
    it. *)
Definition validate_rule (config_data rule : pyval) : M unit :=
  parameter <- rule_get rule "parameter" ;;
  data_type <- rule_get rule "type" ;;
  min_value <- rule_get rule "min" ;;
  max_value <- rule_get rule "max" ;;
  try_except
    (try_body config_data parameter data_type min_value max_value)
    (fun e => report_error (ErrorValidating parameter e)).

Fixpoint for_rules (config_data : pyval) (rules : list pyval) : M unit :=
  match rules with
  | [] => ret tt
  | rule :: rest =>
      fun s =>
        match validate_rule config_data rule s with
        | (Raise e, s') => (Raise e, s')
        | (_, s') => for_rules config_data rest s'
        end
  end.

(** Lines 86-156. *)
Definition validate_config (config_data rules_data : pyval) : outcome :=
  if negb (truthy config_data) then
    Returned false [(ERROR, ConfigNotLoaded)]
  else if negb (truthy rules_data) then
    Returned false [(ERROR, RulesNotLoaded)]
  else
    match py_iter rules_data with
    | inl e => Raised e []
    | inr rules =>
        match for_rules config_data rules initial with
        | (Raise e, s) => Raised e (log s)
        | (_, s) => Returned (is_valid s) (log s)
        end
    end.

Definition rule_ok (config_data rule : pyval) : bool :=
  is_valid (snd (validate_rule config_data rule initial)).

Definition rule_log (config_data rule : pyval) : list record :=
  log (snd (validate_rule config_data rule initial)).

End Limit.

End Limited.

(** A rule record whose parameter can be formatted, as every string
    can. *)
Definition printable_rule (limit : Z) (rule : pyval) : bool :=
  is_dict rule && formattable limit (parameter_of rule).

(** The limit of a default interpreter. *)
Definition default_limit : Z := 4300.

(** An integer of 4301 digits, as a YAML document can hold. *)
Definition huge : Z := 10 ^ 4300.

(** ** The command line

    [main] above is lines 181-203, what follows
    [args = parser.parse_args()].  [parse_args] returns the two
    required options or leaves through [SystemExit] with the code of
    [argparse] (2 on a command line it rejects, 0 after [-h]), having
    logged nothing. *)

Inductive parse_outcome : Type :=
| Parsed (args : arguments)
| ParseExit (code : Z).

Module CommandLine.

(** Lines 174-203. *)
Definition main (w : world) (parsed : parse_outcome) : ending :=
  match parsed with
  | ParseExit code => Exit code []
  | Parsed args => main w args
  end.

End CommandLine.

(** A value a dictionary can take as a key. *)
Definition hashable (v : pyval) : bool :=
  match v with
  | VList _ | VDict _ => false
  | _ => true
  end.

(** A world with a JSON configuration, a YAML configuration, a rules
    file and a rules file that does not parse. *)
Definition sample_world : world :=
  mkWorld
    (fun path => negb (String.eqb path "missing.json"))
    (fun path =>
       if String.eqb path "missing.json"
       then inl (FileNotFoundError "No such file or directory")
       else inr path)
    (fun f =>
       if String.eqb f "config.json" then inr port_document
       else if String.eqb f "empty.json" then inr empty_document
       else if String.eqb f "rules.json" then inr (VList [port_rule])
       else if String.eqb f "object.json" then inr port_rule
       else inl (JSONDecodeError "Expecting value: line 1 column 1 (char 0)"))
    (fun f =>
       if String.eqb f "config.yaml" then inr (VDict [("port", VInt 80)])
       else inl (YAMLError "mapping values are not allowed here"))
    (fun path =>
       if String.eqb path "config.yaml" then ".yaml"
       else if String.eqb path "config.ini" then ".ini"
       else ".json").

Create HintDb framing.
Create HintDb coherence.

(** * Framing

    Every statement of the loop body only appends to the log and only
    ever lowers [is_valid]; what it appends does not depend on the state
    it starts from. *)

Section Framing.

Lemma extend_initial_l d : extend initial d = d.
Proof. destruct d; reflexivity. Qed.

Lemma extend_initial_r s : extend s initial = s.
Proof.
  destruct s; unfold extend; simpl.
  now rewrite andb_true_r, app_nil_r.
Qed.

Lemma extend_assoc s d d' : extend (extend s d) d' = extend s (extend d d').
Proof.
  unfold extend; simpl. now rewrite andb_assoc, app_assoc.
Qed.

Lemma framed_intro {A} (m : M A) c d :
  (forall s, m s = (c, extend s d)) -> framed m.
Proof.
  intros H s. rewrite (H initial), extend_initial_l. apply H.
Qed.

Lemma framed_ret {A} (a : A) : framed (ret a).
Proof.
  apply (framed_intro _ (Normal a) initial).
  intros s. unfold ret. now rewrite extend_initial_r.
Qed.

Lemma framed_raise {A} e : framed (@raise A e).
Proof.
  apply (framed_intro _ (Raise e) initial).
  intros s. unfold raise. now rewrite extend_initial_r.
Qed.

Lemma framed_continue {A} : framed (@continue A).
Proof.
  apply (framed_intro _ Continue initial).
  intros s. unfold continue. now rewrite extend_initial_r.
Qed.

Lemma framed_logging lv msg : framed (logging lv msg).
Proof.
  apply (framed_intro _ (Normal tt) (mkState true [(lv, msg)])).
  intros s. unfold logging, extend; simpl. now rewrite andb_true_r.
Qed.

Lemma framed_logging_error msg : framed (logging_error msg).
Proof. apply framed_logging. Qed.

Lemma framed_logging_warning msg : framed (logging_warning msg).
Proof. apply framed_logging. Qed.

Lemma framed_set_invalid : framed set_invalid.
Proof.
  apply (framed_intro _ (Normal tt) (mkState false [])).
  intros s. unfold set_invalid, extend; simpl.
  now rewrite andb_false_r, app_nil_r.
Qed.

Lemma framed_report_error msg : framed (report_error msg).
Proof.
  apply (framed_intro _ (Normal tt) (mkState false [(ERROR, msg)])).
  intros s. unfold extend; simpl. now rewrite andb_false_r.
Qed.

Lemma framed_bind {A B} (m : M A) (k : A -> M B) :
  framed m -> (forall a, framed (k a)) -> framed (bind m k).
Proof.
  intros Hm Hk s. unfold bind.
  rewrite (Hm s). destruct (m initial) as [[a| |e] d]; simpl; trivial.
  rewrite (Hk a (extend s d)), (Hk a d).
  simpl. now rewrite extend_assoc.
Qed.

Lemma framed_try_except {A} (body : M A) handler :
  framed body -> (forall e, framed (handler e)) ->
  framed (try_except body handler).
Proof.
  intros Hb Hh s. unfold try_except.
  rewrite (Hb s). destruct (body initial) as [[a| |e] d]; simpl; trivial.
  rewrite (Hh e (extend s d)), (Hh e d).
  simpl. now rewrite extend_assoc.
Qed.

Lemma framed_if {A} (c : bool) (m1 m2 : M A) :
  framed m1 -> framed m2 -> framed (if c then m1 else m2).
Proof. now destruct c. Qed.

End Framing.

#[local] Hint Resolve framed_ret framed_raise framed_continue framed_logging
  framed_logging_error framed_logging_warning framed_set_invalid
  framed_report_error framed_bind framed_try_except framed_if : framing.

Ltac framing :=
  repeat first
    [ solve [auto with framing]
    | apply framed_if
    | apply framed_try_except; [ | intro ]
    | apply framed_bind; [ | intro ] ].

Lemma framed_rule_get rule key : framed (rule_get rule key).
Proof. unfold rule_get; destruct rule; auto with framing. Qed.

Lemma framed_config_get config_data parameter :
  framed (config_get config_data parameter).
Proof.
  unfold config_get; destruct config_data; auto with framing.
  destruct parameter; auto with framing.
Qed.

Lemma framed_py_lt a b : framed (py_lt a b).
Proof.
  unfold py_lt. destruct (to_xnum a), (to_xnum b); auto with framing.
Qed.

Lemma framed_py_gt a b : framed (py_gt a b).
Proof.
  unfold py_gt. destruct (to_xnum a), (to_xnum b); auto with framing.
Qed.

Lemma framed_and_then c e : framed e -> framed (and_then c e).
Proof. unfold and_then; destruct c; auto with framing. Qed.

#[local] Hint Resolve framed_rule_get framed_config_get framed_py_lt
  framed_py_gt framed_and_then : framing.

Lemma framed_incorrect_type parameter value expected :
  framed (incorrect_type parameter value expected).
Proof. unfold incorrect_type. framing. Qed.

#[local] Hint Resolve framed_incorrect_type : framing.

Lemma framed_type_validation parameter data_type value :
  framed (type_validation parameter data_type value).
Proof. unfold type_validation. framing. Qed.

Lemma framed_range_validation parameter data_type value min_value max_value :
  framed (range_validation parameter data_type value min_value max_value).
Proof.
  unfold range_validation. framing.
Qed.

#[local] Hint Resolve framed_type_validation framed_range_validation : framing.

Lemma framed_try_body config_data parameter data_type min_value max_value :
  framed (try_body config_data parameter data_type min_value max_value).
Proof.
  unfold try_body, logging_warning. framing.
Qed.

#[local] Hint Resolve framed_try_body : framing.

Lemma framed_validate_rule config_data rule :
  framed (validate_rule config_data rule).
Proof.
  unfold validate_rule. framing.
Qed.

(** * Coherence of [is_valid] with the log *)

Section Coherence.

Lemma coherent_initial : coherent initial.
Proof. reflexivity. Qed.

Lemma coherent_ret {A} (a : A) : keeps_coherent (ret a).
Proof. now intros s H. Qed.

Lemma coherent_raise {A} e : keeps_coherent (@raise A e).
Proof. now intros s H. Qed.

Lemma coherent_continue {A} : keeps_coherent (@continue A).
Proof. now intros s H. Qed.

Lemma coherent_logging_warning msg : keeps_coherent (logging_warning msg).
Proof.
  intros s H. unfold coherent in *; simpl.
  rewrite existsb_app; simpl. now rewrite !orb_false_r.
Qed.

Lemma coherent_report_error msg : keeps_coherent (report_error msg).
Proof.
  intros s H. unfold coherent in *; simpl.
  rewrite existsb_app; simpl. now rewrite orb_true_r.
Qed.

Lemma coherent_bind {A B} (m : M A) (k : A -> M B) :
  keeps_coherent m -> (forall a, keeps_coherent (k a)) ->
  keeps_coherent (bind m k).
Proof.
  intros Hm Hk s H. unfold bind.
  specialize (Hm s H). destruct (m s) as [[a| |e] s']; simpl in *; trivial.
  now apply Hk.
Qed.

Lemma coherent_try_except {A} (body : M A) handler :
  keeps_coherent body -> (forall e, keeps_coherent (handler e)) ->
  keeps_coherent (try_except body handler).
Proof.
  intros Hb Hh s H. unfold try_except.
  specialize (Hb s H). destruct (body s) as [[a| |e] s']; simpl in *; trivial.
  now apply Hh.
Qed.

Lemma coherent_if {A} (c : bool) (m1 m2 : M A) :
  keeps_coherent m1 -> keeps_coherent m2 ->
  keeps_coherent (if c then m1 else m2).
Proof. now destruct c. Qed.

End Coherence.

#[local] Hint Resolve coherent_ret coherent_raise coherent_continue
  coherent_logging_warning coherent_report_error : coherence.

Ltac coherence :=
  repeat first
    [ solve [auto with coherence]
    | apply coherent_if
    | apply coherent_try_except; [ | intro ]
    | apply coherent_bind; [ | intro ] ].

Lemma coherent_rule_get rule key : keeps_coherent (rule_get rule key).
Proof. unfold rule_get; destruct rule; auto with coherence. Qed.

Lemma coherent_config_get config_data parameter :
  keeps_coherent (config_get config_data parameter).
Proof.
  unfold config_get; destruct config_data; auto with coherence.
  destruct parameter; auto with coherence.
Qed.

Lemma coherent_py_lt a b : keeps_coherent (py_lt a b).
Proof.
  unfold py_lt. destruct (to_xnum a), (to_xnum b); auto with coherence.
Qed.

Lemma coherent_py_gt a b : keeps_coherent (py_gt a b).
Proof.
  unfold py_gt. destruct (to_xnum a), (to_xnum b); auto with coherence.
Qed.

Lemma coherent_and_then c e : keeps_coherent e -> keeps_coherent (and_then c e).
Proof. unfold and_then; destruct c; auto with coherence. Qed.

#[local] Hint Resolve coherent_rule_get coherent_config_get coherent_py_lt
  coherent_py_gt coherent_and_then : coherence.

Lemma coherent_validate_rule config_data rule :
  keeps_coherent (validate_rule config_data rule).
Proof.
  unfold validate_rule, try_body, type_validation, range_validation,
    incorrect_type.
  coherence.
Qed.

Lemma coherent_for_rules config_data rules :
  keeps_coherent (for_rules config_data rules).
Proof.
  induction rules as [|rule rest IH]; intros s H; simpl; trivial.
  pose proof (coherent_validate_rule config_data rule s H) as Hr.
  destruct (validate_rule config_data rule s) as [[[]| |e] s']; simpl in *;
    auto.
Qed.

(** The verdict of a call that returns is true exactly when no record
    of level [ERROR] was written. *)
Lemma verdict_iff_no_error config_data rules_data verdict records :
  validate_config config_data rules_data = Returned verdict records ->
  verdict = negb (existsb is_error records).
Proof.
  unfold validate_config.
  destruct (truthy config_data); simpl.
  2:{ intros H; injection H as <- <-. reflexivity. }
  destruct (truthy rules_data); simpl.
  2:{ intros H; injection H as <- <-. reflexivity. }
  destruct (py_iter rules_data) as [e|rules]; [discriminate|].
  pose proof (coherent_for_rules config_data rules initial coherent_initial)
    as Hc.
  destruct (for_rules config_data rules initial) as [[[]| |e] s];
    simpl in *; intros H; try discriminate; injection H as <- <-; exact Hc.
Qed.

Lemma rule_ok_iff_no_error config_data rule :
  rule_ok config_data rule = negb (existsb is_error (rule_log config_data rule)).
Proof.
  apply (coherent_validate_rule config_data rule initial coherent_initial).
Qed.

(** * The loop *)

(** An iteration on a mapping never raises: the four [rule.get] calls
    succeed and the handler of the [try] catches everything. *)
Lemma validate_rule_dict_no_raise config_data r s e :
  fst (validate_rule config_data (VDict r) s) <> Raise e.
Proof.
  unfold validate_rule, rule_get, bind at 1 2 3 4, ret, try_except.
  destruct (try_body _ _ _ _ _ s) as [[[]| |e'] s']; simpl; discriminate.
Qed.

Lemma validate_rule_extend config_data rule s :
  snd (validate_rule config_data rule s)
  = extend s (mkState (rule_ok config_data rule) (rule_log config_data rule)).
Proof.
  rewrite (framed_validate_rule config_data rule s). simpl.
  unfold rule_ok, rule_log.
  now destruct (snd (validate_rule config_data rule initial)).
Qed.

(** On a list of mappings the loop runs every iteration: [is_valid]
    ends as the conjunction of the rules' verdicts and the log as the
    concatenation of their records, in order. *)
Lemma for_rules_dicts config_data rules :
  forallb is_dict rules = true ->
  forall s,
    for_rules config_data rules s
    = (Normal tt,
       extend s (mkState (forallb (rule_ok config_data) rules)
                         (List.concat (map (rule_log config_data) rules)))).
Proof.
  induction rules as [|rule rest IH]; intros Hd s; simpl.
  - unfold ret. f_equal. symmetry. apply (extend_initial_r s).
  - simpl in Hd. apply andb_prop in Hd as [Hr Hrest].
    destruct rule; try discriminate.
    pose proof (validate_rule_dict_no_raise config_data d s) as Hn.
    pose proof (validate_rule_extend config_data (VDict d) s) as Hs.
    destruct (validate_rule config_data (VDict d) s) as [[[]| |e] s'];
      simpl in Hs; subst s'.
    + rewrite (IH Hrest). now rewrite extend_assoc.
    + rewrite (IH Hrest). now rewrite extend_assoc.
    + now contradiction (Hn e).
Qed.

(** The guards of lines 93-98. *)
Lemma validate_config_no_config config_data rules_data :
  truthy config_data = false ->
  validate_config config_data rules_data
  = Returned false [(ERROR, ConfigNotLoaded)].
Proof. unfold validate_config. now intros ->. Qed.

Lemma validate_config_no_rules config_data rules_data :
  truthy config_data = true -> truthy rules_data = false ->
  validate_config config_data rules_data
  = Returned false [(ERROR, RulesNotLoaded)].
Proof. unfold validate_config. now intros -> ->. Qed.

Lemma validate_config_dicts config_data rules :
  truthy config_data = true -> rules <> [] ->
  forallb is_dict rules = true ->
  validate_config config_data (VList rules)
  = Returned (forallb (rule_ok config_data) rules)
             (List.concat (map (rule_log config_data) rules)).
Proof.
  intros Hc Hne Hd. unfold validate_config. rewrite Hc; simpl.
  destruct rules as [|rule rest]; [contradiction|].
  cbn [negb py_iter].
  rewrite (for_rules_dicts config_data (rule :: rest) Hd initial).
  now rewrite extend_initial_l.
Qed.

(** * One iteration, case by case *)

Lemma dict_lookup_remove_same d k : dict_lookup (dict_remove d k) k = None.
Proof.
  induction d as [|[k' v] d IH]; simpl; trivial.
  destruct (String.eqb k' k) eqn:E; simpl; trivial. now rewrite E.
Qed.

Lemma dict_lookup_remove_other d k k' :
  String.eqb k k' = false ->
  dict_lookup (dict_remove d k) k' = dict_lookup d k'.
Proof.
  intros Hk. induction d as [|[k0 v] d IH]; simpl; trivial.
  destruct (String.eqb k0 k) eqn:E; simpl.
  - apply String.eqb_eq in E; subst k0. now rewrite Hk.
  - now rewrite IH.
Qed.

Lemma validate_rule_dict config_data r :
  validate_rule config_data (VDict r)
  = try_except
      (try_body config_data (dict_get r "parameter") (dict_get r "type")
                (dict_get r "min") (dict_get r "max"))
      (fun e => report_error (ErrorValidating (dict_get r "parameter") e)).
Proof. reflexivity. Qed.

(** The parameter is bound to nothing, or to [None]: lines 110-112. *)
Lemma try_body_not_found d p data_type min_value max_value s :
  dict_get d p = VNone ->
  try_body (VDict d) (VStr p) data_type min_value max_value s
  = (Continue, mkState (is_valid s)
                       (log s ++ [(WARNING, ParameterNotFound (VStr p))])).
Proof.
  intros H. unfold try_body, config_get. rewrite H. reflexivity.
Qed.

(** The parameter is bound to a value other than [None]: lines 114-151. *)
Lemma try_body_present d p v data_type min_value max_value s :
  dict_lookup d p = Some v -> is_None v = false ->
  try_body (VDict d) (VStr p) data_type min_value max_value s
  = (type_validation (VStr p) data_type v ;;;
     range_validation (VStr p) data_type v min_value max_value) s.
Proof.
  intros H Hv. unfold try_body, config_get, dict_get. rewrite H.
  unfold bind at 1 2, ret at 1. rewrite Hv. reflexivity.
Qed.

Lemma not_None_is_None v : v <> VNone -> is_None v = false.
Proof. destruct v; trivial. now intros []. Qed.

(** The range comparisons are only reached with a number on the left:
    after a passed [integer] or [float] test. *)
Lemma range_operand_is_number parameter data_type value s s' :
  type_validation parameter data_type value s = (Normal tt, s') ->
  in_strs data_type ["integer"; "float"] = true ->
  to_xnum value <> None.
Proof.
  unfold type_validation, in_strs; simpl.
  destruct (eq_str data_type "integer") eqn:Ei.
  - destruct value; simpl; try discriminate.
  - destruct (eq_str data_type "float") eqn:Ef; [|discriminate].
    destruct value; simpl; try discriminate.
Qed.

Lemma and_then_lt value bound :
  to_xnum value <> None -> is_bound bound = true ->
  and_then (negb (is_None bound)) (py_lt value bound)
  = ret (below value bound).
Proof.
  intros Hv Hb. unfold py_lt, below.
  destruct (to_xnum value); [|contradiction].
  destruct bound; simpl in *; trivial; discriminate.
Qed.

Lemma and_then_gt value bound :
  to_xnum value <> None -> is_bound bound = true ->
  and_then (negb (is_None bound)) (py_gt value bound)
  = ret (above value bound).
Proof.
  intros Hv Hb. unfold py_gt, above.
  destruct (to_xnum value); [|contradiction].
  destruct bound; simpl in *; trivial; discriminate.
Qed.

(** Lines 142-148 on a number and two bounds that are numbers or absent. *)
Lemma range_validation_numbers parameter data_type value min_value max_value s :
  in_strs data_type ["integer"; "float"] = true ->
  to_xnum value <> None ->
  is_bound min_value = true -> is_bound max_value = true ->
  range_validation parameter data_type value min_value max_value s
  = (Normal tt,
     mkState
       (is_valid s && negb (below value min_value)
        && negb (above value max_value))
       (log s
        ++ (if below value min_value
            then [(ERROR, LessThanMinimum parameter value min_value)]
            else [])
        ++ (if above value max_value
            then [(ERROR, GreaterThanMaximum parameter value max_value)]
            else []))).
Proof.
  intros Ht Hv Hmin Hmax. unfold range_validation. rewrite Ht.
  rewrite (and_then_lt _ _ Hv Hmin), (and_then_gt _ _ Hv Hmax).
  destruct s as [b l].
  destruct (below value min_value), (above value max_value); cbn;
    rewrite ?andb_true_r, ?andb_false_r, ?app_nil_r, <- ?app_assoc;
    reflexivity.
Qed.

(** Lines 114-151 when the type is none of the five names. *)
Lemma unknown_type_body parameter data_type value min_value max_value s :
  in_strs data_type ["integer"; "float"; "string"; "boolean"; "list"] = false ->
  (type_validation parameter data_type value ;;;
   range_validation parameter data_type value min_value max_value) s
  = (Normal tt, s).
Proof.
  unfold in_strs; simpl. intros H.
  repeat (apply orb_false_elim in H as [? H]).
  unfold type_validation, range_validation, in_strs; simpl.
  repeat match goal with E : eq_str _ _ = false |- _ => rewrite E; clear E end.
  reflexivity.
Qed.

Lemma forallb_Permutation {A} (f : A -> bool) l l' :
  Permutation l l' -> forallb f l = forallb f l'.
Proof.
  induction 1; simpl; try congruence.
  now rewrite !andb_assoc, (andb_comm (f y)).
Qed.

Lemma concat_map_Permutation {A B} (f : A -> list B) l l' :
  Permutation l l' ->
  Permutation (List.concat (map f l)) (List.concat (map f l')).
Proof.
  induction 1; simpl.
  - constructor.
  - now apply Permutation_app_head.
  - rewrite !app_assoc. apply Permutation_app_tail, Permutation_app_comm.
  - etransitivity; eassumption.
Qed.

Lemma validate_rule_not_found d r p s :
  dict_get r "parameter" = VStr p -> dict_get d p = VNone ->
  validate_rule (VDict d) (VDict r) s
  = (Continue, mkState (is_valid s)
                       (log s ++ [(WARNING, ParameterNotFound (VStr p))])).
Proof.
  intros Hp H. rewrite validate_rule_dict, Hp. unfold try_except.
  now rewrite try_body_not_found.
Qed.

Lemma validate_rule_present d r p v s :
  dict_get r "parameter" = VStr p ->
  dict_lookup d p = Some v -> is_None v = false ->
  validate_rule (VDict d) (VDict r) s
  = try_except
      (type_validation (VStr p) (dict_get r "type") v ;;;
       range_validation (VStr p) (dict_get r "type") v
                        (dict_get r "min") (dict_get r "max"))
      (fun e => report_error (ErrorValidating (VStr p) e)) s.
Proof.
  intros Hp H Hv. rewrite validate_rule_dict, Hp. unfold try_except.
  now rewrite (try_body_present d p v).
Qed.

Lemma rule_outcome_eq config_data rule c d :
  validate_rule config_data rule initial = (c, d) ->
  rule_ok config_data rule = is_valid d /\ rule_log config_data rule = log d.
Proof. unfold rule_ok, rule_log. now intros ->. Qed.

(** On integers the order is the order of [Z]. *)
Lemma below_int a b : below (VInt a) (VInt b) = (a <? b).
Proof.
  unfold below, xnum_ltb, xfin_compare; simpl.
  rewrite !Z.mul_1_r, Z.ltb_compare. reflexivity.
Qed.

Lemma above_int a b : above (VInt a) (VInt b) = (b <? a).
Proof.
  unfold above, xnum_ltb, xfin_compare; simpl.
  rewrite !Z.mul_1_r, Z.ltb_compare. reflexivity.
Qed.

(** * Scenarios *)

Example scenario_A :
  validate_config port_document (VList [port_rule]) = Returned true [].
Proof. reflexivity. Qed.

Example scenario_B :
  validate_config (VDict [("port", VInt 80)]) (VList [port_rule])
  = Returned false
      [(ERROR, LessThanMinimum (VStr "port") (VInt 80) (VInt 1024))].
Proof. reflexivity. Qed.

Example scenario_C :
  validate_config (VDict [("enabled", VInt 1)]) (VList [enabled_rule])
  = Returned false
      [(ERROR, IncorrectType (VStr "enabled") "boolean" "int")].
Proof. reflexivity. Qed.

(** * Properties of [validate_config] *)

(** C1: for every document that binds the parameter of an integer rule
    to a boolean, no type error is written: [isinstance(True, int)]
    holds, the boolean goes on to the range checks as the number 0 or
    1, and a run on that rule alone returns true when the bounds (numbers
    or absent) admit it, instead of a TypeMismatch and false. *)
Theorem boolean_passes_integer_check d r p b :
  dict_get r "parameter" = VStr p ->
  dict_lookup d p = Some (VBool b) ->
  dict_get r "type" = VStr "integer" ->
  is_bound (dict_get r "min") = true ->
  is_bound (dict_get r "max") = true ->
  validate_config (VDict d) (VList [VDict r])
  = Returned
      (negb (below (VBool b) (dict_get r "min"))
       && negb (above (VBool b) (dict_get r "max")))
      ((if below (VBool b) (dict_get r "min")
        then [(ERROR, LessThanMinimum (VStr p) (VBool b) (dict_get r "min"))]
        else [])
       ++ (if above (VBool b) (dict_get r "max")
           then [(ERROR,
                  GreaterThanMaximum (VStr p) (VBool b) (dict_get r "max"))]
           else [])).
Proof.
  intros Hp Hd Ht Hmin Hmax.
  rewrite validate_config_dicts; trivial.
  2:{ destruct d; [discriminate Hd | reflexivity]. }
  2:{ discriminate. }
  assert (Hr : validate_rule (VDict d) (VDict r) initial
               = (type_validation (VStr p) (VStr "integer") (VBool b) ;;;
                  range_validation (VStr p) (VStr "integer") (VBool b)
                    (dict_get r "min") (dict_get r "max")) initial).
  { rewrite (validate_rule_present d r p (VBool b) initial Hp Hd eq_refl), Ht.
    unfold try_except, bind, type_validation; simpl.
    rewrite range_validation_numbers; trivial; discriminate. }
  unfold bind, type_validation in Hr; simpl in Hr.
  rewrite range_validation_numbers in Hr; trivial; try discriminate.
  apply rule_outcome_eq in Hr as [Hok Hlog].
  cbn [forallb map List.concat]. rewrite Hok, Hlog. simpl.
  now rewrite app_nil_r, andb_true_r.
Qed.

Lemma boolean_passes_integer_check_witness :
  validate_config (VDict [("enabled", VBool true)]) (VList [enabled_as_integer])
  = Returned true [].
Proof.
  apply (boolean_passes_integer_check [("enabled", VBool true)]
           [("parameter", VStr "enabled"); ("type", VStr "integer")]
           "enabled" true); reflexivity.
Defined.

(** C2, as stated, fails: on the empty document the run does not return
    true with one warning and no error. *)
Lemma scenario_D_not_on_empty_document :
  ~ (exists records,
        validate_config empty_document (VList [name_rule])
        = Returned true records
        /\ List.length (filter is_warning records) = 1%nat
        /\ filter is_error records = []).
Proof. intros (records & H & _). discriminate H. Qed.

(** C2, amended: for a document without the key [name] and the single
    rule on [name], the empty document is rejected by the guard of line
    93 (verdict false, one error "Configuration data is not loaded", no
    warning); every other such document gives verdict true, exactly one
    warning "parameter not found" and no error. *)
Theorem scenario_D_amended d :
  dict_lookup d "name" = None ->
  validate_config (VDict d) (VList [name_rule])
  = match d with
    | [] => Returned false [(ERROR, ConfigNotLoaded)]
    | _ :: _ => Returned true [(WARNING, ParameterNotFound (VStr "name"))]
    end.
Proof.
  intros H. destruct d as [|kv d]; [reflexivity|].
  rewrite validate_config_dicts by (reflexivity || discriminate).
  cbn [forallb map List.concat]. rewrite app_nil_r, andb_true_r.
  assert (Hn : dict_get (kv :: d) "name" = VNone)
    by (unfold dict_get; now rewrite H).
  pose proof (validate_rule_not_found (kv :: d)
                [("parameter", VStr "name"); ("type", VStr "string")]
                "name" initial eq_refl Hn) as Hr.
  apply rule_outcome_eq in Hr as [Hok Hlog].
  fold name_rule in Hok, Hlog. now rewrite Hok, Hlog.
Qed.

Lemma scenario_D_amended_witness :
  validate_config empty_document (VList [name_rule])
  = Returned false [(ERROR, ConfigNotLoaded)]
  /\ validate_config port_document (VList [name_rule])
     = Returned true [(WARNING, ParameterNotFound (VStr "name"))].
Proof.
  split.
  - apply (scenario_D_amended []). reflexivity.
  - apply (scenario_D_amended [("port", VInt 8080)]). reflexivity.
Defined.

Lemma rule_record_inv rule :
  rule_record rule = true ->
  exists r p, rule = VDict r /\ dict_get r "parameter" = VStr p.
Proof.
  unfold rule_record. destruct rule as [| | | | | |r]; try discriminate.
  simpl. destruct (dict_get r "parameter") as [| | | |p| |] eqn:E;
    try discriminate.
  intros _. now exists r, p.
Qed.

Lemma rule_records_are_dicts rules :
  forallb rule_record rules = true -> forallb is_dict rules = true.
Proof.
  rewrite !forallb_forall. intros H rule Hin.
  specialize (H rule Hin). unfold rule_record in H.
  now apply andb_prop in H as [H _].
Qed.

(** A rule record whose parameter the document does not bind. *)
Lemma absent_rule_outcome d rule :
  rule_record rule = true -> bound_in (VDict d) rule = None ->
  rule_log (VDict d) rule = [(WARNING, ParameterNotFound (parameter_of rule))]
  /\ rule_ok (VDict d) rule = true.
Proof.
  intros Hr Hb. destruct (rule_record_inv rule Hr) as (r & p & -> & Hp).
  unfold bound_in in Hb. simpl in *. rewrite Hp in *.
  assert (Hn : dict_get d p = VNone) by (unfold dict_get; now rewrite Hb).
  pose proof (validate_rule_not_found d r p initial Hp Hn) as H.
  apply rule_outcome_eq in H as [-> ->]. now split.
Qed.

(** C3, as stated, fails: on the empty document the only rule has an
    absent parameter, no rule with a present parameter fails, and yet
    the verdict is false. *)
Lemma missing_parameter_on_empty_document :
  ~ (exists verdict records,
        validate_config empty_document (VList [name_rule])
        = Returned verdict records
        /\ (verdict = true <->
            forall rule, In rule [name_rule] ->
                         bound_in empty_document rule <> None ->
                         existsb is_error (rule_log empty_document rule)
                         = false)).
Proof.
  intros (verdict & records & H & _ & Hv).
  injection H as <- <-. discriminate Hv.
  intros rule [<-|[]] Hb. now contradiction Hb.
Qed.

(** C3, amended: for every non-empty document and every non-empty
    list of rule records, a rule whose parameter is absent from the
    document contributes one warning, no error, and leaves the verdict
    alone; the log is the rules' records in order and the verdict is
    true exactly when no rule whose parameter is present writes an
    error. *)
Theorem missing_parameter_only_warns d rules :
  d <> [] -> rules <> [] -> forallb rule_record rules = true ->
  (forall rule,
      In rule rules -> bound_in (VDict d) rule = None ->
      rule_log (VDict d) rule
      = [(WARNING, ParameterNotFound (parameter_of rule))]
      /\ rule_ok (VDict d) rule = true)
  /\ exists verdict,
      validate_config (VDict d) (VList rules)
      = Returned verdict (List.concat (map (rule_log (VDict d)) rules))
      /\ (verdict = true <->
          forall rule,
            In rule rules -> bound_in (VDict d) rule <> None ->
            existsb is_error (rule_log (VDict d) rule) = false).
Proof.
  intros Hd Hne Hrec.
  assert (Habs : forall rule,
             In rule rules -> bound_in (VDict d) rule = None ->
             rule_log (VDict d) rule
             = [(WARNING, ParameterNotFound (parameter_of rule))]
             /\ rule_ok (VDict d) rule = true).
  { intros rule Hin. apply absent_rule_outcome.
    rewrite forallb_forall in Hrec. now apply Hrec. }
  split; [exact Habs|].
  exists (forallb (rule_ok (VDict d)) rules). split.
  - apply validate_config_dicts; trivial.
    + now destruct d.
    + now apply rule_records_are_dicts.
  - rewrite forallb_forall. split.
    + intros H rule Hin _. specialize (H rule Hin).
      rewrite rule_ok_iff_no_error in H. now apply negb_true_iff in H.
    + intros H rule Hin.
      destruct (bound_in (VDict d) rule) eqn:Hb.
      * rewrite rule_ok_iff_no_error, H; trivial. now rewrite Hb.
      * now apply Habs.
Qed.

Lemma missing_parameter_only_warns_witness :
  exists verdict,
    validate_config port_document (VList [port_rule; name_rule])
    = Returned verdict
        (List.concat (map (rule_log port_document) [port_rule; name_rule]))
    /\ (verdict = true <->
        forall rule,
          In rule [port_rule; name_rule] ->
          bound_in port_document rule <> None ->
          existsb is_error (rule_log port_document rule) = false).
Proof.
  apply (missing_parameter_only_warns [("port", VInt 8080)]
           [port_rule; name_rule]);
    [discriminate | discriminate | reflexivity].
Defined.

(** C4, as stated, fails: with an empty document no rule is evaluated,
    and with an empty rule list the verdict is not the empty
    conjunction. *)
Lemma evaluation_stops_at_the_guards :
  validate_config empty_document (VList [port_rule; name_rule])
  <> Returned (forallb (rule_ok empty_document) [port_rule; name_rule])
       (List.concat (map (rule_log empty_document) [port_rule; name_rule]))
  /\ validate_config port_document (VList [])
     <> Returned (forallb (rule_ok port_document) [])
          (List.concat (map (rule_log port_document) [])).
Proof. split; discriminate. Qed.

(** C4, amended: for every non-empty (truthy) document and every
    non-empty list of rule records, every rule is evaluated: the log is
    the concatenation of the records of all the rules, in order, so
    every record of every rule is in it, also of the rules after one
    that failed, and the verdict is the conjunction of the rules'
    outcomes. *)
Theorem all_rules_evaluated config_data rules :
  truthy config_data = true -> rules <> [] ->
  forallb is_dict rules = true ->
  exists verdict records,
    validate_config config_data (VList rules) = Returned verdict records
    /\ verdict = forallb (rule_ok config_data) rules
    /\ records = List.concat (map (rule_log config_data) rules)
    /\ (forall (before : list pyval) rule after,
          rules = before ++ rule :: after ->
          records
          = List.concat (map (rule_log config_data) before)
            ++ rule_log config_data rule
            ++ List.concat (map (rule_log config_data) after))
    /\ (forall rule record,
          In rule rules -> In record (rule_log config_data rule) ->
          In record records).
Proof.
  intros Hc Hne Hd.
  exists (forallb (rule_ok config_data) rules),
    (List.concat (map (rule_log config_data) rules)).
  split; [|split; [|split; [|split]]]; trivial.
  - unfold validate_config. rewrite Hc.
    destruct rules as [|rule rest]; [contradiction|].
    cbn [negb truthy py_iter].
    rewrite (for_rules_dicts config_data (rule :: rest) Hd initial).
    now rewrite extend_initial_l.
  - intros before rule after ->.
    now rewrite map_app, concat_app.
  - intros rule record Hin Hrec. apply in_concat.
    exists (rule_log config_data rule). split; trivial.
    now apply in_map.
Qed.

Lemma all_rules_evaluated_witness :
  exists verdict records,
    validate_config (VDict [("port", VInt 80)])
      (VList [port_rule; faulty_rule; name_rule])
    = Returned verdict records
    /\ verdict = false
    /\ records
       = [(ERROR, LessThanMinimum (VStr "port") (VInt 80) (VInt 1024));
          (ERROR, ErrorValidating (VStr "port")
                    (TypeError_not_supported "<" "int" "str"));
          (WARNING, ParameterNotFound (VStr "name"))].
Proof.
  destruct (all_rules_evaluated (VDict [("port", VInt 80)])
              [port_rule; faulty_rule; name_rule]
              eq_refl ltac:(discriminate) eq_refl)
    as (verdict & records & H & Hv & Hr & _).
  exists verdict, records. repeat split; assumption.
Defined.

(** When the rule's [isinstance] test fails, an integer or float rule
    writes exactly one record, the type error, sets [is_valid] to false
    and goes on to the next rule; no range record is written, whatever
    the bounds are.  (A boolean passes both tests.) *)
Theorem type_mismatch_skips_range d r p v ty s :
  dict_get r "parameter" = VStr p ->
  dict_lookup d p = Some v -> v <> VNone ->
  dict_get r "type" = VStr ty ->
  (ty = "integer" /\ isinstance v [Cint] = false)
  \/ (ty = "float" /\ isinstance v [Cint; Cfloat] = false) ->
  validate_rule (VDict d) (VDict r) s
  = (Continue,
     mkState false
       (log s ++ [(ERROR, IncorrectType (VStr p) ty (type_name v))])).
Proof.
  intros Hp Hd Hv Ht Hty.
  rewrite (validate_rule_present d r p v s Hp Hd (not_None_is_None v Hv)).
  rewrite Ht. unfold try_except, bind at 1, type_validation.
  destruct Hty as [[-> Hi]|[-> Hi]]; simpl eq_str; rewrite Hi; reflexivity.
Qed.

Lemma isinstance_number v ty :
  (ty = "integer" /\ isinstance v [Cint] = true)
  \/ (ty = "float" /\ isinstance v [Cint; Cfloat] = true) ->
  to_xnum v <> None /\ is_None v = false
  /\ in_strs (VStr ty) ["integer"; "float"] = true
  /\ forall parameter s,
       type_validation parameter (VStr ty) v s = (Normal tt, s).
Proof.
  intros [[-> Hi]|[-> Hi]]; destruct v; try discriminate;
    repeat split; discriminate.
Qed.

(** Without the digit limit: an integer or float rule whose parameter
    is bound to a value that passes the rule's [isinstance] test, with
    bounds that are numbers or absent, writes the "less than minimum"
    error exactly when the value is below [min] and the "greater than
    maximum" error exactly when it is above [max]. *)
Theorem bounds_checked_independently d r p v ty s :
  dict_get r "parameter" = VStr p ->
  dict_lookup d p = Some v ->
  dict_get r "type" = VStr ty ->
  (ty = "integer" /\ isinstance v [Cint] = true)
  \/ (ty = "float" /\ isinstance v [Cint; Cfloat] = true) ->
  is_bound (dict_get r "min") = true ->
  is_bound (dict_get r "max") = true ->
  validate_rule (VDict d) (VDict r) s
  = (Normal tt,
     mkState
       (is_valid s && negb (below v (dict_get r "min"))
        && negb (above v (dict_get r "max")))
       (log s
        ++ (if below v (dict_get r "min")
            then [(ERROR, LessThanMinimum (VStr p) v (dict_get r "min"))]
            else [])
        ++ (if above v (dict_get r "max")
            then [(ERROR, GreaterThanMaximum (VStr p) v (dict_get r "max"))]
            else []))).
Proof.
  intros Hp Hd Ht Hty Hmin Hmax.
  destruct (isinstance_number v ty Hty) as (Hn & Hv & Hin & Htv).
  rewrite (validate_rule_present d r p v s Hp Hd Hv), Ht.
  unfold try_except, bind at 1. rewrite Htv.
  now rewrite (range_validation_numbers _ _ _ _ _ s Hin Hn Hmin Hmax).
Qed.

(** For an element of the rule list that is not a mapping, [rule.get]
    is called before the [try], so the [AttributeError] leaves
    [validate_config] and the rules after it are not evaluated. *)
Lemma non_mapping_rule_raises config_data rule after :
  truthy config_data = true -> is_dict rule = false ->
  validate_config config_data (VList (rule :: after))
  = Raised (AttributeError (type_name rule) "get") [].
Proof.
  intros Hc Hr. unfold validate_config. rewrite Hc.
  destruct rule; try discriminate; reflexivity.
Qed.

(** C8: for every document, every list of rule records and every
    permutation of that list, the two runs return the same verdict and
    their logs are permutations of each other (so the same multiset of
    records: parameter, level and kind of violation). *)
Theorem rule_order_independence config_data rules rules' :
  forallb is_dict rules = true -> Permutation rules rules' ->
  exists verdict records records',
    validate_config config_data (VList rules) = Returned verdict records
    /\ validate_config config_data (VList rules') = Returned verdict records'
    /\ Permutation records records'.
Proof.
  intros Hd Hperm.
  destruct (truthy config_data) eqn:Hc.
  - destruct rules as [|rule rest].
    + apply Permutation_nil in Hperm; subst rules'.
      exists false, [(ERROR, RulesNotLoaded)], [(ERROR, RulesNotLoaded)].
      repeat split; try (now apply validate_config_no_rules).
      apply Permutation_refl.
    + assert (Hd' : forallb is_dict rules' = true).
      { rewrite <- Hd. symmetry. now apply forallb_Permutation. }
      assert (Hne : rules' <> []).
      { intros ->. now apply Permutation_sym, Permutation_nil in Hperm. }
      exists (forallb (rule_ok config_data) (rule :: rest)),
        (List.concat (map (rule_log config_data) (rule :: rest))),
        (List.concat (map (rule_log config_data) rules')).
      split; [|split].
      * now apply validate_config_dicts.
      * rewrite (forallb_Permutation _ _ _ Hperm).
        now apply validate_config_dicts.
      * now apply concat_map_Permutation.
  - exists false, [(ERROR, ConfigNotLoaded)], [(ERROR, ConfigNotLoaded)].
    repeat split; try (now apply validate_config_no_config).
    apply Permutation_refl.
Qed.

Lemma rule_order_independence_witness :
  exists verdict records records',
    validate_config (VDict [("port", VInt 80)])
      (VList [port_rule; name_rule; faulty_rule])
    = Returned verdict records
    /\ validate_config (VDict [("port", VInt 80)])
         (VList [faulty_rule; port_rule; name_rule])
       = Returned verdict records'
    /\ Permutation records records'.
Proof.
  apply (rule_order_independence (VDict [("port", VInt 80)])
           [port_rule; name_rule; faulty_rule]
           [faulty_rule; port_rule; name_rule]).
  - reflexivity.
  - exact (Permutation_sym
             (Permutation_cons_append [port_rule; name_rule] faulty_rule)).
Defined.

(** C9: a parameter bound to [None] is handled as an absent one: the
    rule writes the warning "parameter not found", makes no type or
    range check whatever the rule declares, leaves [is_valid] as it
    was, and does exactly what it does on the document without the
    key. *)
Theorem null_is_absent d r p s :
  dict_get r "parameter" = VStr p ->
  dict_lookup d p = Some VNone ->
  validate_rule (VDict d) (VDict r) s
  = (Continue,
     mkState (is_valid s) (log s ++ [(WARNING, ParameterNotFound (VStr p))]))
  /\ validate_rule (VDict (dict_remove d p)) (VDict r) s
     = validate_rule (VDict d) (VDict r) s.
Proof.
  intros Hp Hd.
  assert (H1 : dict_get d p = VNone) by (unfold dict_get; now rewrite Hd).
  assert (H2 : dict_get (dict_remove d p) p = VNone)
    by (unfold dict_get; now rewrite dict_lookup_remove_same).
  now rewrite !(validate_rule_not_found _ r p s Hp).
Qed.

Lemma null_is_absent_witness :
  validate_rule (VDict [("port", VNone)]) port_rule initial
  = (Continue, mkState true [(WARNING, ParameterNotFound (VStr "port"))])
  /\ validate_rule (VDict []) port_rule initial
     = validate_rule (VDict [("port", VNone)]) port_rule initial.
Proof.
  apply (null_is_absent [("port", VNone)]
           [("parameter", VStr "port"); ("type", VStr "integer");
            ("min", VInt 1024); ("max", VInt 65535)]
           "port" initial); reflexivity.
Defined.

(** C10: a rule whose type is none of the five names, on a parameter
    bound to a value other than [None], makes no type check and no
    range check, whatever [min] and [max] are: it writes nothing and
    leaves [is_valid] as it was, and so does the same rule without its
    type field. *)
Theorem unknown_type_no_checks d r p v s :
  dict_get r "parameter" = VStr p ->
  dict_lookup d p = Some v -> v <> VNone ->
  in_strs (dict_get r "type")
          ["integer"; "float"; "string"; "boolean"; "list"] = false ->
  validate_rule (VDict d) (VDict r) s = (Normal tt, s)
  /\ validate_rule (VDict d) (VDict (dict_remove r "type")) s = (Normal tt, s).
Proof.
  intros Hp Hd Hv Ht. apply not_None_is_None in Hv. split.
  - rewrite (validate_rule_present d r p v s Hp Hd Hv).
    unfold try_except. now rewrite unknown_type_body.
  - assert (Hp' : dict_get (dict_remove r "type") "parameter" = VStr p).
    { unfold dict_get in *. now rewrite dict_lookup_remove_other. }
    rewrite (validate_rule_present d _ p v s Hp' Hd Hv).
    unfold try_except. rewrite unknown_type_body; trivial.
    unfold dict_get. now rewrite dict_lookup_remove_same.
Qed.

Lemma unknown_type_no_checks_witness :
  validate_rule (VDict [("port", VInt 80)]) port_number_rule initial
  = (Normal tt, initial)
  /\ validate_rule (VDict [("port", VInt 80)])
       (VDict [("parameter", VStr "port");
               ("min", VInt 1024); ("max", VInt 65535)]) initial
     = (Normal tt, initial).
Proof.
  apply (unknown_type_no_checks [("port", VInt 80)]
           [("parameter", VStr "port"); ("type", VStr "number");
            ("min", VInt 1024); ("max", VInt 65535)]
           "port" (VInt 80) initial);
    [reflexivity | reflexivity | discriminate | reflexivity].
Defined.

(** * Further properties of [validate_config] *)

Lemma framed_for_rules config_data rules :
  framed (for_rules config_data rules).
Proof.
  induction rules as [|rule rest IH]; simpl.
  - apply framed_ret.
  - intros s. rewrite (framed_validate_rule config_data rule s).
    destruct (validate_rule config_data rule initial) as [[[]| |e] d];
      simpl; trivial;
      rewrite (IH (extend s d)), (IH d); simpl; now rewrite extend_assoc.
Qed.

Lemma for_rules_app config_data rules1 rules2 s :
  for_rules config_data (rules1 ++ rules2) s
  = match for_rules config_data rules1 s with
    | (Raise e, s') => (Raise e, s')
    | (_, s') => for_rules config_data rules2 s'
    end.
Proof.
  revert s. induction rules1 as [|rule rest IH]; intros s; simpl.
  - reflexivity.
  - destruct (validate_rule config_data rule s) as [[[]| |e] s']; trivial.
Qed.

(** The loop ends normally or with an exception, never with
    [continue]. *)
Lemma for_rules_not_continue config_data rules s :
  fst (for_rules config_data rules s) <> Continue.
Proof.
  revert s. induction rules as [|rule rest IH]; intros s; simpl.
  - discriminate.
  - destruct (validate_rule config_data rule s) as [[[]| |e] s']; simpl;
      trivial; discriminate.
Qed.

Lemma validate_rule_non_dict config_data rule s :
  is_dict rule = false ->
  validate_rule config_data rule s
  = (Raise (AttributeError (type_name rule) "get"), s).
Proof. destruct rule; try discriminate; reflexivity. Qed.

(** X1: when [validate_config] returns, its verdict is true exactly
    when it wrote no record of level [ERROR]. *)
Theorem verdict_true_iff_no_error_record config_data rules_data verdict records :
  validate_config config_data rules_data = Returned verdict records ->
  (verdict = true <-> forall r, In r records -> fst r <> ERROR).
Proof.
  intros H. rewrite (verdict_iff_no_error _ _ _ _ H), negb_true_iff.
  split.
  - intros He r Hin Hr.
    assert (Hex : existsb is_error records = true).
    { apply existsb_exists. exists r. split; trivial.
      unfold is_error. now rewrite Hr. }
    congruence.
  - intros Hall. destruct (existsb is_error records) eqn:He; trivial.
    apply existsb_exists in He as (r & Hin & Hr).
    exfalso. apply (Hall r Hin). unfold is_error in Hr.
    now destruct (fst r).
Qed.

Lemma verdict_true_iff_no_error_record_witness :
  false = true <->
  forall r,
    In r [(ERROR, LessThanMinimum (VStr "port") (VInt 80) (VInt 1024))] ->
    fst r <> ERROR.
Proof.
  apply (verdict_true_iff_no_error_record (VDict [("port", VInt 80)])
           (VList [port_rule])).
  reflexivity.
Defined.

(** X2: an element of the rule list that is not a mapping stops the
    run: [validate_config] raises the [AttributeError] of [rule.get];
    the records of the rule records before it have been written, the
    rules after it are not evaluated and no verdict is returned. *)
Theorem non_mapping_rule_stops_run config_data before rule after :
  truthy config_data = true ->
  forallb is_dict before = true -> is_dict rule = false ->
  validate_config config_data (VList (before ++ rule :: after))
  = Raised (AttributeError (type_name rule) "get")
      (List.concat (map (rule_log config_data) before)).
Proof.
  intros Hc Hb Hr. unfold validate_config. rewrite Hc.
  assert (Ht : truthy (VList (before ++ rule :: after)) = true)
    by now destruct before.
  rewrite Ht. cbn [negb py_iter].
  rewrite for_rules_app, (for_rules_dicts config_data before Hb initial).
  rewrite extend_initial_l. simpl.
  now rewrite (validate_rule_non_dict config_data rule _ Hr).
Qed.

Lemma non_mapping_rule_stops_run_witness :
  validate_config (VDict [("port", VInt 80)])
    (VList [port_rule; VStr "port"; name_rule])
  = Raised (AttributeError "str" "get")
      [(ERROR, LessThanMinimum (VStr "port") (VInt 80) (VInt 1024))].
Proof.
  apply (non_mapping_rule_stops_run (VDict [("port", VInt 80)])
           [port_rule] (VStr "port") [name_rule]); reflexivity.
Defined.

(** X3: when the rules are loaded but are not a list, no rule is
    evaluated and [validate_config] raises with an empty log: a
    non-empty mapping or string is iterated and its first key or
    character has no [get]; a number or [True] is not iterable. *)
Theorem rules_not_a_list_raises config_data rules_data :
  truthy config_data = true -> truthy rules_data = true ->
  (forall l, rules_data <> VList l) ->
  validate_config config_data rules_data
  = Raised
      match rules_data with
      | VDict _ | VStr _ => AttributeError "str" "get"
      | _ => TypeError_not_iterable (type_name rules_data)
      end [].
Proof.
  intros Hc Hr Hl. unfold validate_config. rewrite Hc, Hr.
  destruct rules_data as [|b|z|f|t|l|d]; simpl in *; trivial.
  - destruct t as [|a t]; [discriminate|]. reflexivity.
  - now contradiction (Hl l).
  - destruct d as [|[k v] d]; [discriminate|]. reflexivity.
Qed.

Lemma rules_not_a_list_raises_witness :
  validate_config port_document port_rule
  = Raised (AttributeError "str" "get") [].
Proof.
  apply (rules_not_a_list_raises port_document port_rule);
    [reflexivity | reflexivity | discriminate].
Defined.

Lemma concat_map_singleton {A B} (f : A -> B) l :
  List.concat (map (fun x => [f x]) l) = map f l.
Proof. induction l; simpl; congruence. Qed.

Lemma forallb_const_false {A} (f : A -> bool) l :
  l <> [] -> (forall x, In x l -> f x = false) -> forallb f l = false.
Proof.
  destruct l as [|x l]; [contradiction|]. intros _ H. simpl.
  now rewrite (H x (or_introl eq_refl)).
Qed.

(** X4: when the loaded document is not a mapping (a non-empty list or
    string, a number, [True]), every rule record fails in the same way:
    [self.config_data.get] raises inside the [try], so the run returns
    false with exactly one error per rule, naming its parameter, and no
    other record. *)
Theorem non_mapping_document_fails_every_rule config_data rules :
  truthy config_data = true -> is_dict config_data = false ->
  rules <> [] -> forallb is_dict rules = true ->
  validate_config config_data (VList rules)
  = Returned false
      (map (fun rule =>
              (ERROR, ErrorValidating (parameter_of rule)
                        (AttributeError (type_name config_data) "get")))
           rules).
Proof.
  intros Hc Hn Hne Hd.
  assert (Hrule : forall rule,
             In rule rules ->
             rule_ok config_data rule = false
             /\ rule_log config_data rule
                = [(ERROR, ErrorValidating (parameter_of rule)
                             (AttributeError (type_name config_data) "get"))]).
  { intros rule Hin. rewrite forallb_forall in Hd. specialize (Hd rule Hin).
    destruct rule as [| | | | | |r]; try discriminate.
    assert (H : validate_rule config_data (VDict r) initial
                = (Normal tt,
                   mkState false
                     [(ERROR, ErrorValidating (dict_get r "parameter")
                                (AttributeError (type_name config_data)
                                   "get"))])).
    { rewrite validate_rule_dict. unfold try_except, try_body, config_get.
      destruct config_data; try discriminate; reflexivity. }
    apply rule_outcome_eq in H as [-> ->]. now split. }
  rewrite validate_config_dicts; trivial. f_equal.
  - apply forallb_const_false; trivial. intros rule Hin.
    now apply Hrule.
  - set (g := fun rule =>
                (ERROR, ErrorValidating (parameter_of rule)
                          (AttributeError (type_name config_data) "get"))).
    rewrite <- (concat_map_singleton g rules). f_equal.
    apply map_ext_in. intros rule Hin. now apply Hrule.
Qed.

Lemma non_mapping_document_fails_every_rule_witness :
  validate_config (VList [VInt 8080]) (VList [port_rule; name_rule])
  = Returned false
      [(ERROR, ErrorValidating (VStr "port") (AttributeError "list" "get"));
       (ERROR, ErrorValidating (VStr "name") (AttributeError "list" "get"))].
Proof.
  apply (non_mapping_document_fails_every_rule (VList [VInt 8080])
           [port_rule; name_rule]);
    [reflexivity | reflexivity | discriminate | reflexivity].
Defined.

(** X5: a rule of type string, boolean or list never looks at [min] and
    [max]: on a parameter bound to a value other than [None] it writes
    nothing when the value is of the class, and the type error alone
    otherwise, whatever the bounds are (even bounds that are not
    numbers). *)
Theorem structural_types_ignore_bounds d r p v ty cls s :
  dict_get r "parameter" = VStr p ->
  dict_lookup d p = Some v -> v <> VNone ->
  dict_get r "type" = VStr ty ->
  (ty = "string" /\ cls = Cstr) \/ (ty = "boolean" /\ cls = Cbool)
  \/ (ty = "list" /\ cls = Clist) ->
  validate_rule (VDict d) (VDict r) s
  = if isinstance v [cls]
    then (Normal tt, s)
    else (Continue,
          mkState false
            (log s ++ [(ERROR, IncorrectType (VStr p) ty (type_name v))])).
Proof.
  intros Hp Hd Hv Ht Hty.
  rewrite (validate_rule_present d r p v s Hp Hd (not_None_is_None v Hv)), Ht.
  unfold try_except, bind at 1, type_validation, range_validation.
  destruct (isinstance v [cls]) eqn:Hi;
    destruct Hty as [[-> ->]|[[-> ->]|[-> ->]]];
    cbn [eq_str in_strs existsb String.eqb Ascii.eqb Bool.eqb orb];
    rewrite Hi; reflexivity.
Qed.

Lemma structural_types_ignore_bounds_witness :
  validate_rule (VDict [("name", VStr "MyServer")])
    (VDict [("parameter", VStr "name"); ("type", VStr "string");
            ("min", VStr "a"); ("max", VList [])]) initial
  = (Normal tt, initial).
Proof.
  apply (structural_types_ignore_bounds [("name", VStr "MyServer")]
           [("parameter", VStr "name"); ("type", VStr "string");
            ("min", VStr "a"); ("max", VList [])]
           "name" (VStr "MyServer") "string" Cstr initial);
    [reflexivity | reflexivity | discriminate | reflexivity
    | left; split; reflexivity].
Defined.

(** X6: a rule record whose parameter is a list or a mapping cannot be
    looked up: [dict.get] raises [TypeError] (unhashable), the [try]
    catches it, and the rule writes one error and makes the verdict
    false, whatever the document binds. *)
Theorem unhashable_parameter_is_an_error d r s :
  hashable (dict_get r "parameter") = false ->
  validate_rule (VDict d) (VDict r) s
  = (Normal tt,
     mkState false
       (log s
        ++ [(ERROR,
             ErrorValidating (dict_get r "parameter")
               (TypeError_unhashable (type_name (dict_get r "parameter"))))])).
Proof.
  intros Hh. rewrite validate_rule_dict.
  unfold try_except, try_body, config_get.
  destruct (dict_get r "parameter"); try discriminate; reflexivity.
Qed.

Lemma unhashable_parameter_is_an_error_witness :
  validate_rule port_document
    (VDict [("parameter", VList [VStr "port"]); ("type", VStr "integer")])
    initial
  = (Normal tt,
     mkState false
       [(ERROR, ErrorValidating (VList [VStr "port"])
                  (TypeError_unhashable "list"))]).
Proof.
  apply (unhashable_parameter_is_an_error [("port", VInt 8080)]
           [("parameter", VList [VStr "port"]); ("type", VStr "integer")]
           initial).
  reflexivity.
Defined.

(** X8: for an integer or float rule on a value of the right class, a
    [min] that is neither absent nor a number makes the comparison
    raise [TypeError]; the [try] catches it, the rule writes that one
    error and fails, and [max] is never compared, whatever it is. *)
Theorem non_numeric_min_masks_max d r p v ty s :
  dict_get r "parameter" = VStr p ->
  dict_lookup d p = Some v ->
  dict_get r "type" = VStr ty ->
  (ty = "integer" /\ isinstance v [Cint] = true)
  \/ (ty = "float" /\ isinstance v [Cint; Cfloat] = true) ->
  is_bound (dict_get r "min") = false ->
  validate_rule (VDict d) (VDict r) s
  = (Normal tt,
     mkState false
       (log s
        ++ [(ERROR,
             ErrorValidating (VStr p)
               (TypeError_not_supported "<" (type_name v)
                  (type_name (dict_get r "min"))))])).
Proof.
  intros Hp Hd Ht Hty Hmin.
  destruct (isinstance_number v ty Hty) as (Hn & Hv & Hin & Htv).
  rewrite (validate_rule_present d r p v s Hp Hd Hv), Ht.
  unfold try_except, bind at 1. rewrite Htv.
  unfold range_validation. rewrite Hin.
  unfold bind at 1, and_then, py_lt.
  destruct (dict_get r "min"); try discriminate;
    destruct (to_xnum v); reflexivity.
Qed.

Lemma non_numeric_min_masks_max_witness :
  validate_rule (VDict [("port", VInt 80)])
    (VDict [("parameter", VStr "port"); ("type", VStr "integer");
            ("min", VStr "1024"); ("max", VInt 10)]) initial
  = (Normal tt,
     mkState false
       [(ERROR, ErrorValidating (VStr "port")
                  (TypeError_not_supported "<" "int" "str"))]).
Proof.
  apply (non_numeric_min_masks_max [("port", VInt 80)]
           [("parameter", VStr "port"); ("type", VStr "integer");
            ("min", VStr "1024"); ("max", VInt 10)]
           "port" (VInt 80) "integer" initial);
    [reflexivity | reflexivity | reflexivity
    | left; split; reflexivity | reflexivity].
Defined.

(** Without the digit limit: with a [min] that is absent or a number
    and a [max] that is neither, the minimum is checked first and its
    error, if any, is kept; then the comparison with [max] raises, and
    the rule writes the caught [TypeError] after it and fails. *)
Theorem non_numeric_max_after_min d r p v ty s :
  dict_get r "parameter" = VStr p ->
  dict_lookup d p = Some v ->
  dict_get r "type" = VStr ty ->
  (ty = "integer" /\ isinstance v [Cint] = true)
  \/ (ty = "float" /\ isinstance v [Cint; Cfloat] = true) ->
  is_bound (dict_get r "min") = true ->
  is_bound (dict_get r "max") = false ->
  validate_rule (VDict d) (VDict r) s
  = (Normal tt,
     mkState false
       (log s
        ++ (if below v (dict_get r "min")
            then [(ERROR, LessThanMinimum (VStr p) v (dict_get r "min"))]
            else [])
        ++ [(ERROR,
             ErrorValidating (VStr p)
               (TypeError_not_supported ">" (type_name v)
                  (type_name (dict_get r "max"))))])).
Proof.
  intros Hp Hd Ht Hty Hmin Hmax.
  destruct (isinstance_number v ty Hty) as (Hn & Hv & Hin & Htv).
  rewrite (validate_rule_present d r p v s Hp Hd Hv), Ht.
  unfold try_except, bind at 1. rewrite Htv.
  unfold range_validation. rewrite Hin, (and_then_lt _ _ Hn Hmin).
  unfold and_then, py_gt.
  destruct (dict_get r "max"); try discriminate;
    destruct (to_xnum v); try contradiction;
    destruct (below v (dict_get r "min")); cbn;
    rewrite <- ?app_assoc; reflexivity.
Qed.

(** X10: runs compose over concatenation: when the runs on two
    non-empty rule lists both return for a loaded document, the run on
    their concatenation returns the conjunction of the two verdicts and
    the first log followed by the second. *)
Theorem validate_config_app config_data rules1 rules2 v1 l1 v2 l2 :
  truthy config_data = true -> rules1 <> [] -> rules2 <> [] ->
  validate_config config_data (VList rules1) = Returned v1 l1 ->
  validate_config config_data (VList rules2) = Returned v2 l2 ->
  validate_config config_data (VList (rules1 ++ rules2))
  = Returned (v1 && v2) (l1 ++ l2).
Proof.
  intros Hc Hn1 Hn2. unfold validate_config. rewrite Hc.
  destruct rules1 as [|a1 r1]; [contradiction|].
  destruct rules2 as [|a2 r2]; [contradiction|].
  cbn [negb truthy py_iter app]. change (a1 :: r1 ++ a2 :: r2)
    with ((a1 :: r1) ++ a2 :: r2).
  rewrite for_rules_app.
  pose proof (framed_for_rules config_data (a2 :: r2)) as Hf.
  destruct (for_rules config_data (a1 :: r1) initial) as [[[]| |e1] s1];
    try discriminate;
    (intros H1; injection H1 as <- <-;
     rewrite (Hf s1);
     destruct (for_rules config_data (a2 :: r2) initial) as [[[]| |e2] s2];
     try discriminate;
     intros H2; injection H2 as <- <-; reflexivity).
Qed.

Lemma validate_config_app_witness :
  validate_config (VDict [("port", VInt 80)]) (VList [port_rule; name_rule])
  = Returned (false && true)
      ([(ERROR, LessThanMinimum (VStr "port") (VInt 80) (VInt 1024))]
       ++ [(WARNING, ParameterNotFound (VStr "name"))]).
Proof.
  apply (validate_config_app (VDict [("port", VInt 80)])
           [port_rule] [name_rule]);
    [reflexivity | discriminate | discriminate | reflexivity | reflexivity].
Defined.

Lemma concat_length_bound {A B} (f : A -> list B) n l :
  (forall x, In x l -> (List.length (f x) <= n)%nat) ->
  (List.length (List.concat (map f l)) <= n * List.length l)%nat.
Proof.
  induction l as [|x l IH]; intros H; simpl; [lia|].
  rewrite length_app.
  pose proof (H x (or_introl eq_refl)).
  assert (List.length (List.concat (map f l)) <= n * List.length l)%nat
    by (apply IH; intros y Hy; apply H; now right).
  rewrite Nat.mul_succ_r. lia.
Qed.

(** * Loading and [main] *)

Lemma load_config_handler_error c e :
  exists m, load_config_handler c e = (ERROR, m)
            /\ is_validation (ERROR, m) = false.
Proof. destruct e; eexists; split; reflexivity. Qed.

Lemma load_rules_handler_error c e :
  exists m, load_rules_handler c e = (ERROR, m)
            /\ is_validation (ERROR, m) = false.
Proof. destruct e; eexists; split; reflexivity. Qed.

Lemma load_config_cases w c :
  (exists v,
      config_decodes w (config_file c) v
      /\ load_config w c
         = (true, set_config_data c v,
            [(INFO, ConfigurationLoaded (config_file c))]))
  \/ (exists m,
         load_config w c = (false, c, [(ERROR, m)])
         /\ is_validation (ERROR, m) = false
         /\ forall v, ~ config_decodes w (config_file c) v).
Proof.
  unfold load_config, config_decodes.
  destruct (open_read w (config_file c)) as [e|f] eqn:Ho.
  { right. destruct (load_config_handler_error c e) as (m & -> & Hm).
    exists m. repeat split; trivial. intros v (f & Hf & _). discriminate. }
  destruct (String.eqb (file_extension w (config_file c)) ".json") eqn:Ej.
  { apply String.eqb_eq in Ej.
    destruct (json_load w f) as [e|v] eqn:Hj.
    - right. destruct (load_config_handler_error c e) as (m & -> & Hm).
      exists m. repeat split; trivial.
      intros v (f' & Hf & [[_ Hv]|[[Hy|Hy] _]]); injection Hf as <-;
        congruence.
    - left. exists v. split; trivial. exists f. split; trivial. now left. }
  apply String.eqb_neq in Ej.
  destruct (String.eqb (file_extension w (config_file c)) ".yaml"
            || String.eqb (file_extension w (config_file c)) ".yml") eqn:Ey.
  { assert (Hy : file_extension w (config_file c) = ".yaml"
                 \/ file_extension w (config_file c) = ".yml").
    { apply orb_prop in Ey as [E|E]; apply String.eqb_eq in E; auto. }
    destruct (yaml_safe_load w f) as [e|v] eqn:Hl.
    - right. destruct (load_config_handler_error c e) as (m & -> & Hm).
      exists m. repeat split; trivial.
      intros v (f' & Hf & [[Hx _]|[_ Hv]]); injection Hf as <-; congruence.
    - left. exists v. split; trivial. exists f. split; trivial. now right. }
  right. eexists. repeat split.
  intros v (f' & Hf & [[Hx _]|[[Hy|Hy] _]]); try congruence;
    apply orb_false_elim in Ey as [E1 E2];
    apply String.eqb_neq in E1, E2; congruence.
Qed.

Lemma load_rules_cases w c :
  (exists v,
      rules_decode w (rules_file c) v
      /\ load_rules w c
         = (true, set_rules_data c v, [(INFO, RulesLoaded (rules_file c))]))
  \/ (exists m,
         load_rules w c = (false, c, [(ERROR, m)])
         /\ is_validation (ERROR, m) = false
         /\ forall v, ~ rules_decode w (rules_file c) v).
Proof.
  unfold load_rules, rules_decode.
  destruct (open_read w (rules_file c)) as [e|f] eqn:Ho.
  { right. destruct (load_rules_handler_error c e) as (m & -> & Hm).
    exists m. repeat split; trivial. intros v (f & Hf & _). discriminate. }
  destruct (json_load w f) as [e|v] eqn:Hj.
  - right. destruct (load_rules_handler_error c e) as (m & -> & Hm).
    exists m. repeat split; trivial.
    intros v (f' & Hf & Hv). injection Hf as <-. congruence.
  - left. exists v. split; trivial. now exists f.
Qed.

Lemma config_decodes_unique w path v v' :
  config_decodes w path v -> config_decodes w path v' -> v = v'.
Proof.
  intros (f & Hf & H) (f' & Hf' & H').
  rewrite Hf in Hf'. injection Hf' as <-.
  destruct H as [[E H]|[[E|E] H]], H' as [[E' H']|[[E'|E'] H']];
    congruence.
Qed.

Lemma rules_decode_unique w path v v' :
  rules_decode w path v -> rules_decode w path v' -> v = v'.
Proof.
  intros (f & Hf & H) (f' & Hf' & H'). congruence.
Qed.

(** [main] when both files exist and decode. *)
Lemma main_loaded w args cfg rules :
  path_exists w (arg_config_file args) = true ->
  path_exists w (arg_rules_file args) = true ->
  config_decodes w (arg_config_file args) cfg ->
  rules_decode w (arg_rules_file args) rules ->
  main w args
  = match validate_config cfg rules with
    | Returned true l =>
        Exit 0 (loaded_records args ++ map lift_record l
                ++ [(INFO, ConfigurationValid)])
    | Returned false l =>
        Exit 1 (loaded_records args ++ map lift_record l
                ++ [(ERROR, ConfigurationInvalid)])
    | Raised e l => Uncaught e (loaded_records args ++ map lift_record l)
    end.
Proof.
  intros Hc Hr Hcfg Hrules. unfold main. rewrite Hc, Hr. cbn [negb].
  set (c0 := __init__ (arg_config_file args) (arg_rules_file args)).
  destruct (load_config_cases w c0) as [(v & Hv & ->)|(m & _ & _ & Hno)].
  2:{ now contradiction (Hno cfg). }
  rewrite (config_decodes_unique _ _ _ _ Hv Hcfg). cbn [negb].
  destruct (load_rules_cases w (set_config_data c0 cfg))
    as [(v' & Hv' & ->)|(m & _ & _ & Hno)].
  2:{ now contradiction (Hno rules). }
  rewrite (rules_decode_unique _ _ _ _ Hv' Hrules). cbn [negb].
  unfold checker_validate. simpl.
  destruct (validate_config cfg rules) as [[|] l|e l]; reflexivity.
Qed.

(** [main] when a file is missing or does not decode. *)
Lemma main_not_loaded w args :
  path_exists w (arg_config_file args) = false
  \/ path_exists w (arg_rules_file args) = false
  \/ (forall v, ~ config_decodes w (arg_config_file args) v)
  \/ (forall v, ~ rules_decode w (arg_rules_file args) v) ->
  exists before m,
    main w args = Exit 1 (before ++ [(ERROR, m)])
    /\ is_validation (ERROR, m) = false
    /\ (before = [] \/ before = [(INFO, ConfigurationLoaded
                                           (arg_config_file args))]).
Proof.
  intros H. unfold main.
  destruct (path_exists w (arg_config_file args)) eqn:Hc; cbn [negb].
  2:{ exists [], (ConfigFileMissing (arg_config_file args)). auto. }
  destruct (path_exists w (arg_rules_file args)) eqn:Hr; cbn [negb].
  2:{ exists [], (RulesFileMissing (arg_rules_file args)). auto. }
  destruct H as [H|[H|H]]; try discriminate.
  set (c0 := __init__ (arg_config_file args) (arg_rules_file args)).
  destruct (load_config_cases w c0) as [(v & Hv & ->)|(m & -> & Hm & Hno)].
  2:{ exists [], m. auto. }
  cbn [negb].
  destruct (load_rules_cases w (set_config_data c0 v))
    as [(v' & Hv' & ->)|(m & -> & Hm & Hno)].
  2:{ exists [(INFO, ConfigurationLoaded (arg_config_file args))], m. auto. }
  destruct H as [H|H].
  - now contradiction (H v).
  - now contradiction (H v').
Qed.

(** Every run of [main] is of one of the two kinds. *)
Lemma main_loaded_or_not w args :
  (path_exists w (arg_config_file args) = true
   /\ path_exists w (arg_rules_file args) = true
   /\ exists cfg rules,
       config_decodes w (arg_config_file args) cfg
       /\ rules_decode w (arg_rules_file args) rules)
  \/ (path_exists w (arg_config_file args) = false
      \/ path_exists w (arg_rules_file args) = false
      \/ (forall v, ~ config_decodes w (arg_config_file args) v)
      \/ (forall v, ~ rules_decode w (arg_rules_file args) v)).
Proof.
  destruct (path_exists w (arg_config_file args)); [|auto].
  destruct (path_exists w (arg_rules_file args)); [|auto].
  set (c0 := __init__ (arg_config_file args) (arg_rules_file args)).
  destruct (load_config_cases w c0) as [(v & Hv & _)|(m & _ & _ & Hno)];
    [|auto].
  destruct (load_rules_cases w c0) as [(v' & Hv' & _)|(m & _ & _ & Hno)];
    [|auto].
  left. repeat split. now exists v, v'.
Qed.

(** The only exceptions that leave [validate_config]. *)
Lemma validate_config_raised_inv config_data rules_data e records :
  validate_config config_data rules_data = Raised e records ->
  truthy config_data = true /\ truthy rules_data = true
  /\ (forall l, rules_data = VList l -> forallb is_dict l = false)
  /\ exists tn, e = AttributeError tn "get" \/ e = TypeError_not_iterable tn.
Proof.
  intros H.
  destruct (truthy config_data) eqn:Hc.
  2:{ rewrite validate_config_no_config in H; [discriminate|trivial]. }
  destruct (truthy rules_data) eqn:Hr.
  2:{ rewrite validate_config_no_rules in H; [discriminate|trivial..]. }
  repeat split.
  - intros l ->. destruct (forallb is_dict l) eqn:Hd; trivial.
    rewrite validate_config_dicts in H; trivial; try discriminate.
    now destruct l.
  - unfold validate_config in H. rewrite Hc, Hr in H. cbn [negb] in H.
    destruct (py_iter rules_data) as [e'|rules] eqn:Hi.
    + injection H as <- <-.
      exists (type_name rules_data).
      destruct rules_data; try discriminate; injection Hi as <-; auto.
    + clear Hi. revert H. generalize initial as s.
      induction rules as [|rule rest IH]; intros s; simpl.
      * discriminate.
      * destruct (is_dict rule) eqn:Hd.
        -- destruct rule; try discriminate.
           pose proof (validate_rule_dict_no_raise config_data d s) as Hn.
           destruct (validate_rule config_data (VDict d) s)
             as [[[]| |e'] s'];
             [apply IH | apply IH | now contradiction (Hn e')].
        -- rewrite (validate_rule_non_dict _ _ _ Hd).
           intros H. injection H as <- <-. eauto.
Qed.

Lemma for_rules_raises config_data rules :
  forallb is_dict rules = false ->
  forall s, exists e s', for_rules config_data rules s = (Raise e, s').
Proof.
  induction rules as [|rule rest IH]; simpl; [discriminate|].
  intros H s. destruct (is_dict rule) eqn:Hd.
  - simpl in H. destruct rule; try discriminate.
    pose proof (validate_rule_dict_no_raise config_data d s) as Hn.
    destruct (validate_rule config_data (VDict d) s) as [[[]| |e'] s'];
      [apply (IH H) | apply (IH H) | now contradiction (Hn e')].
  - rewrite (validate_rule_non_dict _ _ _ Hd). eauto.
Qed.

Lemma lift_record_not_error l :
  existsb is_error l = false ->
  forall r, In r (map lift_record l) -> fst r <> ERROR.
Proof.
  intros He r Hin Hr. apply in_map_iff in Hin as (x & <- & Hx).
  assert (existsb is_error l = true); [|congruence].
  apply existsb_exists. exists x. split; trivial.
  unfold is_error. simpl in Hr. now rewrite Hr.
Qed.

(** X13: [load_config] returns true exactly when the file opens and
    the decoder selected by its extension ([.json], or [.yaml] and
    [.yml]) accepts it; then [config_data] is the decoded value and one
    [INFO] record is written.  Otherwise the checker is unchanged and
    exactly one [ERROR] record is written.  [rules_data] is never
    touched. *)
Theorem load_config_outcome w c :
  let '(ok, c', records) := load_config w c in
  (ok = true <-> exists v, config_decodes w (config_file c) v)
  /\ (forall v, config_decodes w (config_file c) v ->
                c' = set_config_data c v
                /\ records = [(INFO, ConfigurationLoaded (config_file c))])
  /\ (ok = false -> c' = c /\ exists m, records = [(ERROR, m)])
  /\ rules_data c' = rules_data c.
Proof.
  destruct (load_config_cases w c) as [(v & Hv & ->)|(m & -> & _ & Hno)].
  - split; [|split; [|split]].
    + split; [intros _; now exists v | trivial].
    + intros v' Hv'. rewrite (config_decodes_unique _ _ _ _ Hv' Hv). now split.
    + discriminate.
    + reflexivity.
  - split; [|split; [|split]].
    + split; [discriminate | intros (v & Hv); now contradiction (Hno v)].
    + intros v Hv. now contradiction (Hno v).
    + intros _. split; trivial. now exists m.
    + reflexivity.
Qed.

(** X14: [load_rules] returns true exactly when the file opens and
    [json.load] accepts it, whatever its extension; then [rules_data]
    is the decoded value and one [INFO] record is written.  Otherwise
    the checker is unchanged and exactly one [ERROR] record is written.
    [config_data] is never touched. *)
Theorem load_rules_outcome w c :
  let '(ok, c', records) := load_rules w c in
  (ok = true <-> exists v, rules_decode w (rules_file c) v)
  /\ (forall v, rules_decode w (rules_file c) v ->
                c' = set_rules_data c v
                /\ records = [(INFO, RulesLoaded (rules_file c))])
  /\ (ok = false -> c' = c /\ exists m, records = [(ERROR, m)])
  /\ config_data c' = config_data c.
Proof.
  destruct (load_rules_cases w c) as [(v & Hv & ->)|(m & -> & _ & Hno)].
  - split; [|split; [|split]].
    + split; [intros _; now exists v | trivial].
    + intros v' Hv'. rewrite (rules_decode_unique _ _ _ _ Hv' Hv). now split.
    + discriminate.
    + reflexivity.
  - split; [|split; [|split]].
    + split; [discriminate | intros (v & Hv); now contradiction (Hno v)].
    + intros v Hv. now contradiction (Hno v).
    + intros _. split; trivial. now exists m.
    + reflexivity.
Qed.

(** After the command line has been parsed: when the run exits, the
    code is 0 or 1, and it is 0 exactly when no record of level [ERROR]
    was written. *)
Theorem main_exit_code_matches_log w args code records :
  main w args = Exit code records ->
  (code = 0 \/ code = 1)
  /\ (code = 0 <-> forall r, In r records -> fst r <> ERROR).
Proof.
  intros H.
  destruct (main_loaded_or_not w args)
    as [(Hc & Hr & cfg & rules & Hcfg & Hrules)|Hno].
  - rewrite (main_loaded w args cfg rules Hc Hr Hcfg Hrules) in H.
    destruct (validate_config cfg rules) as [[|] l|e l] eqn:Hv;
      try discriminate; injection H as <- <-.
    + split; [auto|]. split; trivial. intros _ r Hin.
      pose proof (verdict_iff_no_error _ _ _ _ Hv) as He.
      symmetry in He. apply negb_true_iff in He.
      unfold loaded_records in Hin. simpl in Hin.
      destruct Hin as [<-|[<-|Hin]]; try discriminate.
      apply in_app_or in Hin as [Hin|[<-|[]]]; try discriminate.
      now apply (lift_record_not_error l He).
    + split; [auto|]. split; [discriminate|]. intros Hall. exfalso.
      apply (Hall (ERROR, ConfigurationInvalid)); trivial.
      right. right. apply in_or_app. right. now left.
  - destruct (main_not_loaded w args Hno) as (before & m & Hm & _ & _).
    rewrite Hm in H. injection H as <- <-.
    split; [auto|]. split; [discriminate|]. intros Hall. exfalso.
    apply (Hall (ERROR, m)); trivial. apply in_or_app. right. now left.
Qed.

(** After the command line has been parsed: the run exits with code 0
    exactly when both files exist, both decode, and [validate_config]
    returns true on the decoded values. *)
Theorem main_exit_zero_iff w args records :
  main w args = Exit 0 records
  <-> path_exists w (arg_config_file args) = true
      /\ path_exists w (arg_rules_file args) = true
      /\ exists cfg rules l,
          config_decodes w (arg_config_file args) cfg
          /\ rules_decode w (arg_rules_file args) rules
          /\ validate_config cfg rules = Returned true l
          /\ records = loaded_records args ++ map lift_record l
                       ++ [(INFO, ConfigurationValid)].
Proof.
  split.
  - intros H.
    destruct (main_loaded_or_not w args)
      as [(Hc & Hr & cfg & rules & Hcfg & Hrules)|Hno].
    + rewrite (main_loaded w args cfg rules Hc Hr Hcfg Hrules) in H.
      destruct (validate_config cfg rules) as [[|] l|e l] eqn:Hv;
        try discriminate.
      injection H as <-. repeat split; trivial. now exists cfg, rules, l.
    + destruct (main_not_loaded w args Hno) as (before & m & Hm & _).
      rewrite Hm in H. discriminate.
  - intros (Hc & Hr & cfg & rules & l & Hcfg & Hrules & Hv & ->).
    now rewrite (main_loaded w args cfg rules Hc Hr Hcfg Hrules), Hv.
Qed.

(** X17: when the configuration or the rules cannot be decoded (or a
    file is missing), validation never runs: [main] exits with code 1,
    the last record is the error of the load, and no record of
    [validate_config] is written. *)
Theorem main_load_failure_skips_validation w args :
  (forall v, ~ config_decodes w (arg_config_file args) v)
  \/ (forall v, ~ rules_decode w (arg_rules_file args) v) ->
  exists before m,
    main w args = Exit 1 (before ++ [(ERROR, m)])
    /\ forall r, In r (before ++ [(ERROR, m)]) -> is_validation r = false.
Proof.
  intros H.
  destruct (main_not_loaded w args) as (before & m & Hm & Hv & Hb).
  { destruct H; auto. }
  exists before, m. split; trivial.
  intros r Hin. apply in_app_or in Hin as [Hin|[<-|[]]]; trivial.
  destruct Hb as [->| ->]; [contradiction|].
  destruct Hin as [<-|[]]. reflexivity.
Qed.

Lemma main_load_failure_skips_validation_witness :
  exists before m,
    main sample_world (mkArguments "config.json" "broken.json")
    = Exit 1 (before ++ [(ERROR, m)])
    /\ forall r, In r (before ++ [(ERROR, m)]) -> is_validation r = false.
Proof.
  apply (main_load_failure_skips_validation sample_world
           (mkArguments "config.json" "broken.json")).
  right. intros v (f & Hf & Hv). injection Hf as <-. discriminate Hv.
Defined.

(** X18: a configuration file that decodes to a falsy value ([null],
    an empty mapping or list, 0, an empty string, [false]) is logged as
    loaded and then reported as not loaded: [main] exits with code 1
    and no rule is evaluated. *)
Theorem main_rejects_falsy_config w args cfg rules :
  path_exists w (arg_config_file args) = true ->
  path_exists w (arg_rules_file args) = true ->
  config_decodes w (arg_config_file args) cfg ->
  rules_decode w (arg_rules_file args) rules ->
  truthy cfg = false ->
  main w args
  = Exit 1 [(INFO, ConfigurationLoaded (arg_config_file args));
            (INFO, RulesLoaded (arg_rules_file args));
            (ERROR, Validation ConfigNotLoaded);
            (ERROR, ConfigurationInvalid)].
Proof.
  intros Hc Hr Hcfg Hrules Ht.
  rewrite (main_loaded w args cfg rules Hc Hr Hcfg Hrules).
  now rewrite (validate_config_no_config cfg rules Ht).
Qed.

Lemma main_rejects_falsy_config_witness :
  main sample_world (mkArguments "empty.json" "rules.json")
  = Exit 1 [(INFO, ConfigurationLoaded "empty.json");
            (INFO, RulesLoaded "rules.json");
            (ERROR, Validation ConfigNotLoaded);
            (ERROR, ConfigurationInvalid)].
Proof.
  apply (main_rejects_falsy_config sample_world
           (mkArguments "empty.json" "rules.json")
           empty_document (VList [port_rule])).
  - reflexivity.
  - reflexivity.
  - exists "empty.json". split; [reflexivity|]. left. split; reflexivity.
  - exists "rules.json". split; reflexivity.
  - reflexivity.
Defined.

(** X19: [main] ends with an uncaught exception only when both files
    were loaded and the rules are not a list of mappings: the
    exception is the one [validate_config] raised, no "valid" or
    "invalid" record is written and no exit code is set by [main]. *)
Theorem main_uncaught_only_malformed_rules w args e records :
  main w args = Uncaught e records ->
  exists cfg rules l,
    config_decodes w (arg_config_file args) cfg
    /\ rules_decode w (arg_rules_file args) rules
    /\ validate_config cfg rules = Raised e l
    /\ (forall rs, rules = VList rs -> forallb is_dict rs = false)
    /\ records = loaded_records args ++ map lift_record l.
Proof.
  intros H.
  destruct (main_loaded_or_not w args)
    as [(Hc & Hr & cfg & rules & Hcfg & Hrules)|Hno].
  - rewrite (main_loaded w args cfg rules Hc Hr Hcfg Hrules) in H.
    destruct (validate_config cfg rules) as [[|] l|e' l] eqn:Hv;
      try discriminate.
    injection H as <- <-. exists cfg, rules, l.
    repeat split; trivial.
    now apply validate_config_raised_inv in Hv as (_ & _ & Hl & _).
  - destruct (main_not_loaded w args Hno) as (before & m & Hm & _).
    rewrite Hm in H. discriminate.
Qed.

Lemma main_uncaught_only_malformed_rules_witness :
  exists cfg rules l,
    config_decodes sample_world "config.json" cfg
    /\ rules_decode sample_world "object.json" rules
    /\ validate_config cfg rules = Raised (AttributeError "str" "get") l
    /\ (forall rs, rules = VList rs -> forallb is_dict rs = false)
    /\ [(INFO, ConfigurationLoaded "config.json");
        (INFO, RulesLoaded "object.json")]
       = loaded_records (mkArguments "config.json" "object.json")
         ++ map lift_record l.
Proof.
  apply (main_uncaught_only_malformed_rules sample_world
           (mkArguments "config.json" "object.json")).
  reflexivity.
Defined.

(** * The range check on numbers *)

(** X20: the bounds of an integer rule are inclusive: for an integer
    value and integer [min] and [max], the rule passes, writing
    nothing, exactly when [min <= value <= max]; a value equal to a
    bound is accepted. *)
Theorem integer_range_is_inclusive d r p z lo hi s :
  dict_get r "parameter" = VStr p ->
  dict_lookup d p = Some (VInt z) ->
  dict_get r "type" = VStr "integer" ->
  dict_get r "min" = VInt lo -> dict_get r "max" = VInt hi ->
  (lo <= z <= hi ->
   validate_rule (VDict d) (VDict r) s = (Normal tt, s))
  /\ (rule_ok (VDict d) (VDict r) = true <-> lo <= z <= hi).
Proof.
  intros Hp Hd Ht Hmin Hmax.
  assert (H : forall s',
             validate_rule (VDict d) (VDict r) s'
             = (Normal tt,
                mkState
                  (is_valid s' && negb (z <? lo) && negb (hi <? z))
                  (log s'
                   ++ (if z <? lo
                       then [(ERROR,
                              LessThanMinimum (VStr p) (VInt z) (VInt lo))]
                       else [])
                   ++ (if hi <? z
                       then [(ERROR,
                              GreaterThanMaximum (VStr p) (VInt z) (VInt hi))]
                       else [])))).
  { intros s'.
    rewrite (validate_rule_present d r p (VInt z) s' Hp Hd eq_refl).
    rewrite Ht, Hmin, Hmax. unfold try_except, bind at 1.
    change (type_validation (VStr p) (VStr "integer") (VInt z) s')
      with (@Normal unit tt, s').
    cbv beta iota.
    rewrite range_validation_numbers; try reflexivity; try discriminate.
    now rewrite below_int, above_int. }
  split.
  - intros [Hlo Hhi]. rewrite H.
    apply Z.ltb_ge in Hlo, Hhi. rewrite Hlo, Hhi. simpl.
    destruct s as [b l]. simpl. now rewrite !andb_true_r, app_nil_r.
  - unfold rule_ok. rewrite H. simpl.
    rewrite andb_true_iff, !negb_true_iff, !Z.ltb_ge. tauto.
Qed.

Lemma integer_range_is_inclusive_witness :
  (1024 <= 1024 <= 65535 ->
   validate_rule (VDict [("port", VInt 1024)]) port_rule initial
   = (Normal tt, initial))
  /\ (rule_ok (VDict [("port", VInt 1024)]) port_rule = true
      <-> 1024 <= 1024 <= 65535).
Proof.
  apply (integer_range_is_inclusive [("port", VInt 1024)]
           [("parameter", VStr "port"); ("type", VStr "integer");
            ("min", VInt 1024); ("max", VInt 65535)]
           "port" 1024 1024 65535 initial); reflexivity.
Defined.

(** X21: a NaN passes every range check: for a float rule on a
    parameter bound to NaN, and bounds that are numbers or absent, both
    comparisons are false, so the rule writes nothing and the verdict
    is kept. *)
Theorem nan_passes_every_range d r p s :
  dict_get r "parameter" = VStr p ->
  dict_lookup d p = Some (VFloat S754_nan) ->
  dict_get r "type" = VStr "float" ->
  is_bound (dict_get r "min") = true ->
  is_bound (dict_get r "max") = true ->
  validate_rule (VDict d) (VDict r) s = (Normal tt, s).
Proof.
  intros Hp Hd Ht Hmin Hmax.
  rewrite (validate_rule_present d r p _ s Hp Hd eq_refl), Ht.
  unfold try_except, bind at 1.
  change (type_validation (VStr p) (VStr "float") (VFloat S754_nan) s)
    with (@Normal unit tt, s).
  cbv beta iota.
  rewrite range_validation_numbers; try reflexivity; try discriminate;
    trivial.
  assert (Hb : forall b, below (VFloat S754_nan) b = false).
  { intros b. unfold below. simpl. now destruct (to_xnum b). }
  assert (Ha : forall b, above (VFloat S754_nan) b = false).
  { intros b. unfold above. simpl.
    destruct (to_xnum b) as [[| |]|]; trivial. now destruct neg. }
  rewrite Hb, Ha. destruct s as [b l]. simpl.
  now rewrite !andb_true_r, app_nil_r.
Qed.

Lemma nan_passes_every_range_witness :
  validate_rule (VDict [("ratio", VFloat S754_nan)]) crossed_rule initial
  = (Normal tt, initial).
Proof.
  apply (nan_passes_every_range [("ratio", VFloat S754_nan)]
           [("parameter", VStr "ratio"); ("type", VStr "float");
            ("min", VInt 10); ("max", VInt 1)]
           "ratio" initial); reflexivity.
Defined.

(** * The limit on integer string conversion *)

Lemma formattable_unlimited limit v : limit <= 0 -> formattable limit v = true.
Proof.
  intros H. unfold formattable. apply Z.leb_le in H. now rewrite H.
Qed.

Lemma format_ok_unlimited limit msg : limit <= 0 -> format_ok limit msg = true.
Proof.
  intros H. destruct msg; simpl; trivial;
    now rewrite ?formattable_unlimited.
Qed.

Lemma formattable_scalar limit v :
  match v with VInt _ | VList _ | VDict _ => False | _ => True end ->
  formattable limit v = true.
Proof.
  unfold formattable. destruct v; simpl; try contradiction;
    intros _; apply orb_true_r.
Qed.

Lemma formattable_int limit z :
  0 < limit -> formattable limit (VInt z) = (Z.abs z <? 10 ^ limit).
Proof.
  intros H. unfold formattable. simpl.
  apply Z.leb_gt in H. now rewrite H.
Qed.

Lemma checked_logging_ok limit lv msg :
  format_ok limit msg = true -> checked_logging limit lv msg = logging lv msg.
Proof. unfold checked_logging. now intros ->. Qed.

Ltac unfold_rule :=
  unfold Limited.validate_rule, Limited.try_body, Limited.type_validation,
    Limited.range_validation, Limited.incorrect_type, Limited.report_error,
    Limited.logging_warning, Limited.logging_error, checked_logging,
    validate_rule, try_body, type_validation, range_validation,
    incorrect_type, report_error, logging_warning, logging_error,
    rule_get, config_get, try_except, and_then, py_lt, py_gt, in_strs,
    logging, set_invalid, bind, ret, raise, continue;
  cbn [existsb].

Ltac split_cases :=
  repeat match goal with
         | |- context [match ?x with _ => _ end] =>
             match x with
             | context [match _ with _ => _ end] => fail 1
             | _ => destruct x eqn:?
             end
         end.

Ltac close_case :=
  cbn in *; try discriminate;
  repeat match goal with
         | H : _ && _ = true |- _ => apply andb_prop in H as [? ?]
         end;
  repeat match goal with
         | H : ?x = true, H' : context [?x] |- _ =>
             lazymatch type of H' with
             | x = true => fail
             | _ => rewrite H in H'
             end
         end;
  cbn in *; try discriminate; try congruence.

(** With the limit, an iteration does what it does without it as long
    as every record it writes can be formatted. *)
Lemma limited_validate_rule_agrees limit config_data r s :
  forallb (fun rec => format_ok limit (snd rec))
          (rule_log config_data (VDict r)) = true ->
  Limited.validate_rule limit config_data (VDict r) s
  = validate_rule config_data (VDict r) s.
Proof.
  unfold rule_log. unfold_rule. unfold format_ok.
  split_cases; cbn; intros H; try reflexivity; close_case.
Qed.

Lemma framed_checked_logging limit lv msg :
  framed (checked_logging limit lv msg).
Proof. unfold checked_logging. framing. Qed.

#[local] Hint Resolve framed_checked_logging : framing.

Lemma framed_limited_validate_rule limit config_data rule :
  framed (Limited.validate_rule limit config_data rule).
Proof.
  unfold Limited.validate_rule, Limited.try_body, Limited.type_validation,
    Limited.range_validation, Limited.incorrect_type, Limited.report_error,
    Limited.logging_warning, Limited.logging_error.
  framing.
Qed.

Lemma limited_validate_rule_dict limit config_data r :
  Limited.validate_rule limit config_data (VDict r)
  = try_except
      (Limited.try_body limit config_data (dict_get r "parameter")
         (dict_get r "type") (dict_get r "min") (dict_get r "max"))
      (fun e =>
         Limited.report_error limit
           (ErrorValidating (dict_get r "parameter") e)).
Proof. reflexivity. Qed.

(** What can leave an iteration: the [AttributeError] of [rule.get] on
    an element that is not a mapping, or the [ValueError] of the
    handler's f-string on a parameter that cannot be formatted. *)
Lemma limited_validate_rule_raise limit config_data rule s e s' :
  Limited.validate_rule limit config_data rule s = (Raise e, s') ->
  (is_dict rule = false /\ e = AttributeError (type_name rule) "get")
  \/ (is_dict rule = true
      /\ formattable limit (parameter_of rule) = false
      /\ e = ValueError_str_digits limit).
Proof.
  destruct rule as [| | | | | |r];
    try (intros H; injection H as <- <-; now left).
  rewrite limited_validate_rule_dict. unfold try_except. simpl.
  destruct (Limited.try_body _ _ _ _ _ _ s) as [[[]| |e0] s0];
    try discriminate.
  unfold Limited.report_error, Limited.logging_error, checked_logging, bind.
  simpl.
  destruct (formattable limit (dict_get r "parameter")); simpl;
    [discriminate|].
  intros H. injection H as <- <-. right. auto.
Qed.

Lemma limited_validate_rule_extend limit config_data rule s :
  snd (Limited.validate_rule limit config_data rule s)
  = extend s (mkState (Limited.rule_ok limit config_data rule)
                      (Limited.rule_log limit config_data rule)).
Proof.
  rewrite (framed_limited_validate_rule limit config_data rule s). simpl.
  unfold Limited.rule_ok, Limited.rule_log.
  now destruct (snd (Limited.validate_rule limit config_data rule initial)).
Qed.

Lemma limited_for_rules_printable limit config_data rules :
  forallb (printable_rule limit) rules = true ->
  forall s,
    Limited.for_rules limit config_data rules s
    = (Normal tt,
       extend s
         (mkState (forallb (Limited.rule_ok limit config_data) rules)
            (List.concat (map (Limited.rule_log limit config_data) rules)))).
Proof.
  induction rules as [|rule rest IH]; intros Hd s; simpl.
  - unfold ret. f_equal. symmetry. apply (extend_initial_r s).
  - simpl in Hd. apply andb_prop in Hd as [Hr Hrest].
    apply andb_prop in Hr as [Hdict Hfmt].
    pose proof (limited_validate_rule_raise limit config_data rule s) as Hn.
    pose proof (limited_validate_rule_extend limit config_data rule s) as Hs.
    destruct (Limited.validate_rule limit config_data rule s)
      as [[[]| |e] s']; simpl in Hs; subst s'.
    + rewrite (IH Hrest). now rewrite extend_assoc.
    + rewrite (IH Hrest). now rewrite extend_assoc.
    + destruct (Hn e _ eq_refl) as [[H _]|[_ [H _]]]; congruence.
Qed.

Lemma limited_validate_config_printable limit config_data rules :
  truthy config_data = true -> rules <> [] ->
  forallb (printable_rule limit) rules = true ->
  Limited.validate_config limit config_data (VList rules)
  = Returned (forallb (Limited.rule_ok limit config_data) rules)
      (List.concat (map (Limited.rule_log limit config_data) rules)).
Proof.
  intros Hc Hne Hd. unfold Limited.validate_config. rewrite Hc; simpl.
  destruct rules as [|rule rest]; [contradiction|].
  cbn [negb py_iter].
  rewrite (limited_for_rules_printable limit config_data (rule :: rest) Hd).
  now rewrite extend_initial_l.
Qed.

Lemma limited_validate_rule_non_dict limit config_data rule s :
  is_dict rule = false ->
  Limited.validate_rule limit config_data rule s
  = validate_rule config_data rule s.
Proof. destruct rule; try discriminate; reflexivity. Qed.

(** The two loops agree as long as every record can be formatted. *)
Lemma limited_for_rules_agrees limit config_data rules :
  (forall r, In (VDict r) rules ->
             forallb (fun rec => format_ok limit (snd rec))
                     (rule_log config_data (VDict r)) = true) ->
  forall s,
    Limited.for_rules limit config_data rules s
    = for_rules config_data rules s.
Proof.
  induction rules as [|rule rest IH]; intros H s; simpl; trivial.
  assert (Hr : Limited.validate_rule limit config_data rule s
               = validate_rule config_data rule s).
  { destruct (is_dict rule) eqn:Hd.
    - destruct rule; try discriminate.
      apply limited_validate_rule_agrees. apply H. now left.
    - now apply limited_validate_rule_non_dict. }
  rewrite Hr.
  destruct (validate_rule config_data rule s) as [[[]| |e] s']; trivial;
    apply IH; intros r Hin; apply H; now right.
Qed.

Lemma limited_validate_config_agrees limit config_data rules_data :
  (forall rules r,
      py_iter rules_data = inr rules -> In (VDict r) rules ->
      forallb (fun rec => format_ok limit (snd rec))
              (rule_log config_data (VDict r)) = true) ->
  Limited.validate_config limit config_data rules_data
  = validate_config config_data rules_data.
Proof.
  intros H. unfold Limited.validate_config, validate_config.
  destruct (truthy config_data); trivial.
  destruct (truthy rules_data); trivial. cbn [negb].
  destruct (py_iter rules_data) as [e|rules]; trivial.
  rewrite limited_for_rules_agrees; trivial.
  intros r Hin. now apply (H rules).
Qed.

(** With the limit disabled ([sys.set_int_max_str_digits(0)], or an
    interpreter before 3.11) the two models are one. *)
Lemma limited_validate_config_unlimited limit config_data rules_data :
  limit <= 0 ->
  Limited.validate_config limit config_data rules_data
  = validate_config config_data rules_data.
Proof.
  intros H. apply limited_validate_config_agrees. intros rules r _ _.
  apply forallb_forall. intros rec _. now apply format_ok_unlimited.
Qed.

(** * Booleans, the digit limit and malformed rules *)

(** C5: a boolean is a value of the wrong kind for an integer and for a
    float rule, yet it gets no type error and its range is checked:
    with [min] 5, the one record of the run is "less than minimum" and
    none is a TypeMismatch. *)
Theorem wrong_kind_boolean_is_range_checked (b : bool) :
  validate_config (VDict [("enabled", VBool b)])
    (VList [VDict [("parameter", VStr "enabled"); ("type", VStr "integer");
                   ("min", VInt 5)]])
  = Returned false
      [(ERROR, LessThanMinimum (VStr "enabled") (VBool b) (VInt 5))]
  /\ validate_config (VDict [("enabled", VBool b)])
       (VList [VDict [("parameter", VStr "enabled"); ("type", VStr "float");
                      ("min", VInt 5)]])
     = Returned false
         [(ERROR, LessThanMinimum (VStr "enabled") (VBool b) (VInt 5))].
Proof. destruct b; split; reflexivity. Qed.

Lemma formattable_string limit p : formattable limit (VStr p) = true.
Proof. now apply formattable_scalar. Qed.

Lemma bind_normal {A B} (m : M A) (k : A -> M B) s a s' :
  m s = (Normal a, s') -> bind m k s = k a s'.
Proof. unfold bind. now intros ->. Qed.

Lemma xnum_ltb_int a b : xnum_ltb (XFin a 0) (XFin b 0) = (a <? b).
Proof.
  unfold xnum_ltb, xfin_compare; simpl.
  rewrite !Z.mul_1_r, Z.ltb_compare. reflexivity.
Qed.

Lemma huge_is_large : 65535 < huge.
Proof.
  unfold huge. apply Z.lt_le_trans with (10 ^ 5); [reflexivity|].
  apply Z.pow_le_mono_r; lia.
Qed.

Lemma huge_beyond_default_limit :
  formattable default_limit (VInt huge) = false.
Proof.
  rewrite formattable_int by reflexivity.
  apply Z.ltb_ge. unfold huge, default_limit.
  rewrite Z.abs_eq; [apply Z.le_refl|]. apply Z.pow_nonneg. lia.
Qed.

Lemma small_within_limit limit z :
  5 <= limit -> Z.abs z < 10 ^ 5 -> formattable limit (VInt z) = true.
Proof.
  intros Hl Hz. rewrite formattable_int by lia. apply Z.ltb_lt.
  apply Z.lt_le_trans with (10 ^ 5); [exact Hz|].
  apply Z.pow_le_mono_r; lia.
Qed.

Lemma limited_rule_outcome_eq limit config_data rule c d :
  Limited.validate_rule limit config_data rule initial = (c, d) ->
  Limited.rule_ok limit config_data rule = is_valid d
  /\ Limited.rule_log limit config_data rule = log d.
Proof. unfold Limited.rule_ok, Limited.rule_log. now intros ->. Qed.

(** An integer above the maximum of [port_rule] that cannot be
    formatted: the f-string of line 147 raises, the handler logs. *)
Lemma port_above_maximum_unformattable limit z s :
  65535 < z -> formattable limit (VInt z) = false ->
  Limited.validate_rule limit (VDict [("port", VInt z)]) port_rule s
  = (Normal tt,
     mkState false
       (log s ++ [(ERROR, ErrorValidating (VStr "port")
                            (ValueError_str_digits limit))])).
Proof.
  intros Hz Hf.
  assert (Hlo : (z <? 1024) = false) by (apply Z.ltb_ge; lia).
  assert (Hhi : (65535 <? z) = true) by (apply Z.ltb_lt; lia).
  unfold port_rule. rewrite limited_validate_rule_dict.
  unfold try_except, Limited.try_body, config_get.
  cbn [dict_get dict_lookup String.eqb Ascii.eqb Bool.eqb].
  rewrite (bind_normal _ _ s (VInt z) s eq_refl). cbn [is_None].
  rewrite (bind_normal _ _ s tt s eq_refl).
  rewrite (bind_normal _ _ s tt s eq_refl).
  unfold Limited.range_validation.
  cbn [in_strs existsb eq_str String.eqb Ascii.eqb Bool.eqb orb].
  unfold and_then, py_lt, py_gt. cbn [is_None negb to_xnum].
  rewrite !xnum_ltb_int, Hlo, Hhi.
  rewrite (bind_normal _ _ s false s eq_refl).
  rewrite (bind_normal _ _ s tt s eq_refl).
  rewrite (bind_normal _ _ s true s eq_refl).
  unfold Limited.report_error, Limited.logging_error, checked_logging.
  cbn [format_ok]. rewrite Hf, andb_false_r. cbn [andb].
  rewrite formattable_string. reflexivity.
Qed.

(** C6, as stated, fails: an integer of 4301 digits passes the integer
    test and is above the maximum, yet no "greater than maximum" record
    is written: building it raises [ValueError], and the rule writes
    "Error validating parameter" instead. *)
Lemma range_record_lost_beyond_limit :
  isinstance (VInt huge) [Cint] = true
  /\ above (VInt huge) (VInt 65535) = true
  /\ Limited.validate_config default_limit (VDict [("port", VInt huge)])
       (VList [port_rule])
     = Returned false
         [(ERROR, ErrorValidating (VStr "port")
                    (ValueError_str_digits default_limit))].
Proof.
  split; [reflexivity|]. split.
  - rewrite above_int. apply Z.ltb_lt. exact huge_is_large.
  - rewrite limited_validate_config_printable;
      [|reflexivity|discriminate|reflexivity].
    pose proof (port_above_maximum_unformattable default_limit huge initial
                  huge_is_large huge_beyond_default_limit) as H.
    apply limited_rule_outcome_eq in H as [Hok Hlog].
    cbn [forallb map List.concat]. now rewrite Hok, Hlog.
Qed.

(** C6, amended: for an integer or float rule whose parameter is bound
    to a value that passes the rule's [isinstance] test, with bounds
    that are numbers or absent, and when the value and the bounds can
    be formatted (every boolean and float, every integer within the
    digit limit), the two bounds are checked one after the other: the
    "less than minimum" error is written exactly when the value is
    below [min], the "greater than maximum" error exactly when it is
    above [max], and both when both bounds are violated. *)
Theorem bounds_checked_independently_within_limit limit d r p v ty s :
  dict_get r "parameter" = VStr p ->
  dict_lookup d p = Some v ->
  dict_get r "type" = VStr ty ->
  (ty = "integer" /\ isinstance v [Cint] = true)
  \/ (ty = "float" /\ isinstance v [Cint; Cfloat] = true) ->
  is_bound (dict_get r "min") = true ->
  is_bound (dict_get r "max") = true ->
  formattable limit v = true ->
  formattable limit (dict_get r "min") = true ->
  formattable limit (dict_get r "max") = true ->
  Limited.validate_rule limit (VDict d) (VDict r) s
  = (Normal tt,
     mkState
       (is_valid s && negb (below v (dict_get r "min"))
        && negb (above v (dict_get r "max")))
       (log s
        ++ (if below v (dict_get r "min")
            then [(ERROR, LessThanMinimum (VStr p) v (dict_get r "min"))]
            else [])
        ++ (if above v (dict_get r "max")
            then [(ERROR, GreaterThanMaximum (VStr p) v (dict_get r "max"))]
            else []))).
Proof.
  intros Hp Hd Ht Hty Hmin Hmax Fv Fmin Fmax.
  rewrite limited_validate_rule_agrees.
  - now apply (bounds_checked_independently d r p v ty s).
  - pose proof (bounds_checked_independently d r p v ty initial
                  Hp Hd Ht Hty Hmin Hmax) as H.
    apply rule_outcome_eq in H as [_ ->]. simpl.
    destruct (below v (dict_get r "min")), (above v (dict_get r "max"));
      simpl; now rewrite ?formattable_string, ?Fv, ?Fmin, ?Fmax.
Qed.

Lemma bounds_checked_independently_within_limit_witness :
  Limited.validate_rule default_limit (VDict [("ratio", VInt 5)])
    crossed_rule initial
  = (Normal tt,
     mkState false
       [(ERROR, LessThanMinimum (VStr "ratio") (VInt 5) (VInt 10));
        (ERROR, GreaterThanMaximum (VStr "ratio") (VInt 5) (VInt 1))]).
Proof.
  apply (bounds_checked_independently_within_limit default_limit
           [("ratio", VInt 5)]
           [("parameter", VStr "ratio"); ("type", VStr "float");
            ("min", VInt 10); ("max", VInt 1)]
           "ratio" (VInt 5) "float" initial);
    [reflexivity | reflexivity | reflexivity
    | right; split; reflexivity | reflexivity | reflexivity
    | apply small_within_limit; [discriminate | reflexivity]
    | apply small_within_limit; [discriminate | reflexivity]
    | apply small_within_limit; [discriminate | reflexivity]].
Defined.

(** C7: an element of the rule list that is not a mapping, here a
    string where a rule record is expected, is not caught: [rule.get]
    raises before the [try], the [AttributeError] leaves
    [validate_config], nothing is logged and no rule after it is
    evaluated. *)
Theorem malformed_rule_record_escapes (after : list pyval) :
  validate_config port_document (VList (VStr "port" :: after))
  = Raised (AttributeError "str" "get") [].
Proof.
  apply (non_mapping_rule_raises port_document (VStr "port") after);
    reflexivity.
Qed.

(** * Further properties under the digit limit *)

(** X9: with a [min] that is absent or a number and a [max] that is
    neither, on a value of the right class, when the value and [min]
    can be formatted: the minimum is checked first and its error, if
    any, is kept; then the comparison with [max] raises, and the rule
    writes the caught [TypeError] after it and fails. *)
Theorem non_numeric_max_after_min_within_limit limit d r p v ty s :
  dict_get r "parameter" = VStr p ->
  dict_lookup d p = Some v ->
  dict_get r "type" = VStr ty ->
  (ty = "integer" /\ isinstance v [Cint] = true)
  \/ (ty = "float" /\ isinstance v [Cint; Cfloat] = true) ->
  is_bound (dict_get r "min") = true ->
  is_bound (dict_get r "max") = false ->
  formattable limit v = true ->
  formattable limit (dict_get r "min") = true ->
  Limited.validate_rule limit (VDict d) (VDict r) s
  = (Normal tt,
     mkState false
       (log s
        ++ (if below v (dict_get r "min")
            then [(ERROR, LessThanMinimum (VStr p) v (dict_get r "min"))]
            else [])
        ++ [(ERROR,
             ErrorValidating (VStr p)
               (TypeError_not_supported ">" (type_name v)
                  (type_name (dict_get r "max"))))])).
Proof.
  intros Hp Hd Ht Hty Hmin Hmax Fv Fmin.
  rewrite limited_validate_rule_agrees.
  - now apply (non_numeric_max_after_min d r p v ty s).
  - pose proof (non_numeric_max_after_min d r p v ty initial
                  Hp Hd Ht Hty Hmin Hmax) as H.
    apply rule_outcome_eq in H as [_ ->]. simpl.
    destruct (below v (dict_get r "min")); simpl;
      now rewrite ?formattable_string, ?Fv, ?Fmin.
Qed.

Lemma non_numeric_max_after_min_within_limit_witness :
  Limited.validate_rule default_limit (VDict [("port", VInt 80)])
    (VDict [("parameter", VStr "port"); ("type", VStr "integer");
            ("min", VInt 1024); ("max", VStr "65535")]) initial
  = (Normal tt,
     mkState false
       [(ERROR, LessThanMinimum (VStr "port") (VInt 80) (VInt 1024));
        (ERROR, ErrorValidating (VStr "port")
                  (TypeError_not_supported ">" "int" "str"))]).
Proof.
  apply (non_numeric_max_after_min_within_limit default_limit
           [("port", VInt 80)]
           [("parameter", VStr "port"); ("type", VStr "integer");
            ("min", VInt 1024); ("max", VStr "65535")]
           "port" (VInt 80) "integer" initial);
    [reflexivity | reflexivity | reflexivity
    | left; split; reflexivity | reflexivity | reflexivity
    | apply small_within_limit; [discriminate | reflexivity]
    | apply small_within_limit; [discriminate | reflexivity]].
Defined.

Lemma limited_rule_log_levels_and_size limit config_data r :
  formattable limit (dict_get r "parameter") = true ->
  (List.length (Limited.rule_log limit config_data (VDict r)) <= 2)%nat
  /\ forallb
       (fun rec => negb (match fst rec with INFO => true | _ => false end))
       (Limited.rule_log limit config_data (VDict r)) = true.
Proof.
  unfold Limited.rule_log. unfold_rule. unfold format_ok.
  split_cases; cbn; intros H; try (split; [lia | reflexivity]); close_case.
Qed.

Lemma limited_validate_config_no_config limit config_data rules_data :
  truthy config_data = false ->
  Limited.validate_config limit config_data rules_data
  = Returned false [(ERROR, ConfigNotLoaded)].
Proof. unfold Limited.validate_config. now intros ->. Qed.

Lemma limited_validate_config_no_rules limit config_data rules_data :
  truthy config_data = true -> truthy rules_data = false ->
  Limited.validate_config limit config_data rules_data
  = Returned false [(ERROR, RulesNotLoaded)].
Proof. unfold Limited.validate_config. now intros -> ->. Qed.

(** X11: under the digit limit, a run on rule records whose parameters
    can be formatted (every string can) always returns, and writes few
    records: at most two per rule (one when a guard stops the run),
    each of level [WARNING] or [ERROR], never [INFO]. *)
Theorem log_is_bounded_within_limit limit config_data rules :
  forallb (printable_rule limit) rules = true ->
  exists verdict records,
    Limited.validate_config limit config_data (VList rules)
    = Returned verdict records
    /\ (List.length records <= Nat.max 1 (2 * List.length rules))%nat
    /\ forall rec, In rec records -> fst rec <> INFO.
Proof.
  intros Hd.
  destruct (truthy config_data) eqn:Hc.
  - destruct rules as [|rule rest].
    + exists false, [(ERROR, RulesNotLoaded)]. split; [|split].
      * now apply limited_validate_config_no_rules.
      * simpl. lia.
      * intros rec [<-|[]]. discriminate.
    + exists (forallb (Limited.rule_ok limit config_data) (rule :: rest)),
        (List.concat
           (map (Limited.rule_log limit config_data) (rule :: rest))).
      assert (Hrule : forall x,
                 In x (rule :: rest) ->
                 (List.length (Limited.rule_log limit config_data x) <= 2)%nat
                 /\ forall rec,
                      In rec (Limited.rule_log limit config_data x) ->
                      fst rec <> INFO).
      { intros x Hin. rewrite forallb_forall in Hd. specialize (Hd x Hin).
        apply andb_prop in Hd as [Hx Hf].
        destruct x as [| | | | | |r]; try discriminate.
        destruct (limited_rule_log_levels_and_size limit config_data r Hf)
          as [Hlen Hlev].
        split; trivial. intros rec Hrec Hinfo.
        rewrite forallb_forall in Hlev. specialize (Hlev rec Hrec).
        now rewrite Hinfo in Hlev. }
      split; [|split].
      * now apply limited_validate_config_printable.
      * etransitivity; [|apply Nat.le_max_r].
        apply concat_length_bound. intros x Hin. now apply Hrule.
      * intros rec Hin. apply in_concat in Hin as (l & Hl & Hrec).
        apply in_map_iff in Hl as (x & <- & Hx).
        now apply (Hrule x Hx).
  - exists false, [(ERROR, ConfigNotLoaded)]. split; [|split].
    + now apply limited_validate_config_no_config.
    + apply Nat.le_max_l.
    + intros rec [<-|[]]. discriminate.
Qed.

Lemma log_is_bounded_within_limit_witness :
  exists verdict records,
    Limited.validate_config default_limit (VDict [("ratio", VInt 5)])
      (VList [crossed_rule])
    = Returned verdict records
    /\ (List.length records <= Nat.max 1 (2 * 1))%nat
    /\ forall rec, In rec records -> fst rec <> INFO.
Proof.
  apply (log_is_bounded_within_limit default_limit
           (VDict [("ratio", VInt 5)]) [crossed_rule]).
  reflexivity.
Defined.

Lemma limited_for_rules_raise limit config_data rules :
  forall s e s',
    Limited.for_rules limit config_data rules s = (Raise e, s') ->
    exists rule,
      In rule rules
      /\ ((is_dict rule = false /\ e = AttributeError (type_name rule) "get")
          \/ (is_dict rule = true
              /\ formattable limit (parameter_of rule) = false
              /\ e = ValueError_str_digits limit)).
Proof.
  induction rules as [|rule rest IH]; intros s e s'; simpl.
  - discriminate.
  - destruct (Limited.validate_rule limit config_data rule s)
      as [[[]| |e0] s0] eqn:Hr.
    + intros H. destruct (IH _ _ _ H) as (x & Hin & Hx). exists x. auto.
    + intros H. destruct (IH _ _ _ H) as (x & Hin & Hx). exists x. auto.
    + intros H. injection H as <- <-. exists rule. split; [now left|].
      now apply (limited_validate_rule_raise limit config_data rule s e0 s0).
Qed.

Lemma limited_for_rules_raises limit config_data rules :
  forallb is_dict rules = false ->
  forall s,
    exists e s', Limited.for_rules limit config_data rules s = (Raise e, s').
Proof.
  induction rules as [|rule rest IH]; simpl; [discriminate|].
  intros H s. destruct (is_dict rule) eqn:Hd.
  - simpl in H.
    destruct (Limited.validate_rule limit config_data rule s)
      as [[[]| |e0] s0]; [apply (IH H) | apply (IH H) | eauto].
  - rewrite (limited_validate_rule_non_dict _ _ _ _ Hd),
      (validate_rule_non_dict _ _ _ Hd). eauto.
Qed.

Lemma not_all_dicts rule rules :
  In rule rules -> is_dict rule = false -> forallb is_dict rules = false.
Proof.
  intros Hin Hd. destruct (forallb is_dict rules) eqn:H; trivial.
  rewrite forallb_forall in H. rewrite (H rule Hin) in Hd. discriminate.
Qed.

(** X12: under the digit limit, [validate_config] raises only when the
    document and the rules are both loaded, and then either the rules
    are not a list of mappings (the [AttributeError] of a missing [get]
    or the [TypeError] of a value that is not iterable) or the
    parameter of a rule record cannot be formatted (the [ValueError] of
    the handler's f-string).  It always raises in the first case, and
    always returns on a list of rule records whose parameters can be
    formatted. *)
Theorem validate_config_raises_within_limit limit config_data rules_data :
  (forall e records,
      Limited.validate_config limit config_data rules_data
      = Raised e records ->
      truthy config_data = true /\ truthy rules_data = true
      /\ (((exists tn,
               e = AttributeError tn "get" \/ e = TypeError_not_iterable tn)
           /\ forall l, rules_data = VList l -> forallb is_dict l = false)
          \/ (e = ValueError_str_digits limit
              /\ exists rules rule,
                  py_iter rules_data = inr rules /\ In rule rules
                  /\ is_dict rule = true
                  /\ formattable limit (parameter_of rule) = false)))
  /\ (truthy config_data = true -> truthy rules_data = true ->
      (forall l, rules_data = VList l -> forallb is_dict l = false) ->
      exists e records,
        Limited.validate_config limit config_data rules_data
        = Raised e records)
  /\ (forall l,
        rules_data = VList l -> forallb (printable_rule limit) l = true ->
        exists verdict records,
          Limited.validate_config limit config_data rules_data
          = Returned verdict records).
Proof.
  split; [|split].
  - intros e records H.
    destruct (truthy config_data) eqn:Hc.
    2:{ rewrite limited_validate_config_no_config in H; trivial.
        discriminate. }
    destruct (truthy rules_data) eqn:Hr.
    2:{ rewrite limited_validate_config_no_rules in H; trivial.
        discriminate. }
    split; trivial. split; trivial.
    unfold Limited.validate_config in H. rewrite Hc, Hr in H.
    cbn [negb] in H.
    destruct (py_iter rules_data) as [e'|rules] eqn:Hi.
    + injection H as <- <-. left. split.
      * exists (type_name rules_data).
        destruct rules_data; try discriminate; injection Hi as <-; auto.
      * intros l ->. discriminate.
    + destruct (Limited.for_rules limit config_data rules initial)
        as [[[]| |e0] s0] eqn:Hf; try discriminate.
      injection H as <- <-.
      destruct (limited_for_rules_raise _ _ _ _ _ _ Hf)
        as (rule & Hin & [[Hd ->]|(Hd & Hp & ->)]).
      * left. split; [eauto|]. intros l ->. injection Hi as <-.
        now apply (not_all_dicts rule).
      * right. split; trivial. now exists rules, rule.
  - intros Hc Hr Hl. unfold Limited.validate_config. rewrite Hc, Hr.
    cbn [negb].
    destruct (py_iter rules_data) as [e|rules] eqn:Hi; [eauto|].
    assert (Hd : forallb is_dict rules = false).
    { destruct rules_data as [| | | |t|l|d]; try discriminate;
        injection Hi as <-.
      - destruct t; [discriminate|reflexivity].
      - now apply Hl.
      - destruct d; [discriminate|reflexivity]. }
    destruct (limited_for_rules_raises limit config_data rules Hd initial)
      as (e & s & ->).
    eauto.
  - intros l -> Hp.
    destruct (truthy config_data) eqn:Hc.
    2:{ rewrite limited_validate_config_no_config; eauto. }
    destruct l as [|rule rest].
    { rewrite limited_validate_config_no_rules; eauto. }
    rewrite limited_validate_config_printable; trivial; [eauto|discriminate].
Qed.

(** * The command line *)

(** X15: when [main] exits, either [parse_args] ended the run
    ([argparse]'s own code, nothing logged), or the command line was
    parsed and the code is 0 or 1, and 0 exactly when the run wrote no
    record of level [ERROR]. *)
Theorem command_line_exit_code w parsed code records :
  CommandLine.main w parsed = Exit code records ->
  match parsed with
  | ParseExit c => code = c /\ records = []
  | Parsed _ =>
      (code = 0 \/ code = 1)
      /\ (code = 0 <-> forall r, In r records -> fst r <> ERROR)
  end.
Proof.
  destruct parsed as [args|c]; simpl.
  - apply main_exit_code_matches_log.
  - intros H. injection H as <- <-. now split.
Qed.

Lemma command_line_exit_code_witness :
  (1 = 0 \/ 1 = 1)
  /\ (1 = 0 <->
      forall r,
        In r [(INFO, ConfigurationLoaded "config.yaml");
              (INFO, RulesLoaded "rules.json");
              (ERROR, Validation
                        (LessThanMinimum (VStr "port") (VInt 80) (VInt 1024)));
              (ERROR, ConfigurationInvalid)] ->
        fst r <> ERROR).
Proof.
  apply (command_line_exit_code sample_world
           (Parsed (mkArguments "config.yaml" "rules.json"))).
  reflexivity.
Defined.

(** X16: [main] exits with code 0 exactly when [parse_args] itself
    exits with 0 (as after [-h]), nothing being read or logged, or the
    command line is parsed, both files exist, both decode, and
    [validate_config] returns true on the decoded values; the log is
    then the two "loaded" records, the records of the validation and
    "Configuration is valid." *)
Theorem command_line_exit_zero_iff w parsed records :
  CommandLine.main w parsed = Exit 0 records
  <-> (parsed = ParseExit 0 /\ records = [])
      \/ exists args,
          parsed = Parsed args
          /\ path_exists w (arg_config_file args) = true
          /\ path_exists w (arg_rules_file args) = true
          /\ exists cfg rules l,
              config_decodes w (arg_config_file args) cfg
              /\ rules_decode w (arg_rules_file args) rules
              /\ validate_config cfg rules = Returned true l
              /\ records = loaded_records args ++ map lift_record l
                           ++ [(INFO, ConfigurationValid)].
Proof.
  destruct parsed as [args|c]; simpl; split.
  - intros H. right. exists args. split; trivial.
    now apply main_exit_zero_iff.
  - intros [[H _]|(args' & H & Hrest)]; [discriminate|].
    injection H as <-. now apply main_exit_zero_iff.
  - intros H. injection H as <- <-. now left.
  - intros [[H ->]|(args' & H & _)]; [|discriminate].
    now injection H as <-.
Qed.

Lemma command_line_exit_zero_iff_witness :
  CommandLine.main sample_world
    (Parsed (mkArguments "config.json" "rules.json"))
  = Exit 0 [(INFO, ConfigurationLoaded "config.json");
            (INFO, RulesLoaded "rules.json");
            (INFO, ConfigurationValid)].
Proof.
  apply (proj2 (command_line_exit_zero_iff sample_world
                  (Parsed (mkArguments "config.json" "rules.json")) _)).
  right. exists (mkArguments "config.json" "rules.json").
  split; [reflexivity|]. split; [reflexivity|]. split; [reflexivity|].
  exists port_document, (VList [port_rule]), [].
  split; [|split; [|split]].
  - exists "config.json". split; [reflexivity|]. left. split; reflexivity.
  - exists "rules.json". split; reflexivity.
  - reflexivity.
  - reflexivity.
Defined.

(** * The order on numbers is the order of their values *)

Lemma xfin_value_shift m e d :
  0 <= d ->
  (xfin_value m (e + d) == inject_Z (m * 2 ^ d) * Qpower 2 e)%Q.
Proof.
  intros Hd. unfold xfin_value.
  rewrite inject_Z_mult, Qpower_plus by discriminate.
  rewrite (Zpower_Qpower 2 d Hd). change (inject_Z 2) with 2%Q. ring.
Qed.

Lemma Qcompare_scale (a b : Z) (c : Q) :
  (0 < c)%Q -> (inject_Z a * c ?= inject_Z b * c)%Q = (a ?= b).
Proof.
  intros Hc. destruct (Z.compare_spec a b) as [H|H|H].
  - subst b. apply Qeq_alt. reflexivity.
  - apply Qlt_alt. apply Qmult_lt_r; trivial. now rewrite <- Zlt_Qlt.
  - apply Qgt_alt. apply Qmult_lt_r; trivial. now rewrite <- Zlt_Qlt.
Qed.

(** [xfin_compare] compares the rational values [m * 2^e]. *)
Lemma xfin_compare_spec m1 e1 m2 e2 :
  xfin_compare m1 e1 m2 e2 = (xfin_value m1 e1 ?= xfin_value m2 e2)%Q.
Proof.
  unfold xfin_compare. set (e := Z.min e1 e2).
  assert (H1 : 0 <= e1 - e) by (unfold e; lia).
  assert (H2 : 0 <= e2 - e) by (unfold e; lia).
  replace e1 with (e + (e1 - e)) at 2 by lia.
  replace e2 with (e + (e2 - e)) at 2 by lia.
  rewrite (xfin_value_shift m1 e _ H1), (xfin_value_shift m2 e _ H2).
  symmetry. apply Qcompare_scale. now apply Qpower_0_lt.
Qed.

(** On finite numbers (booleans, integers, finite floats) [<] and [>]
    are the strict order of the values; a NaN is below and above
    nothing. *)
Lemma below_finite v b m1 e1 m2 e2 :
  to_xnum v = Some (XFin m1 e1) -> to_xnum b = Some (XFin m2 e2) ->
  (below v b = true <-> (xfin_value m1 e1 < xfin_value m2 e2)%Q)
  /\ (above v b = true <-> (xfin_value m2 e2 < xfin_value m1 e1)%Q).
Proof.
  intros Hv Hb. unfold below, above. rewrite Hv, Hb. simpl.
  rewrite !xfin_compare_spec, !Qlt_alt.
  split.
  - destruct (xfin_value m1 e1 ?= xfin_value m2 e2)%Q; split;
      trivial; discriminate.
  - destruct (xfin_value m2 e2 ?= xfin_value m1 e1)%Q; split;
      trivial; discriminate.
Qed.

Lemma nan_not_ordered b :
  below (VFloat S754_nan) b = false /\ above (VFloat S754_nan) b = false
  /\ below b (VFloat S754_nan) = false /\ above b (VFloat S754_nan) = false.
Proof.
  unfold below, above. simpl.
  destruct (to_xnum b) as [[|[]|]|]; repeat split; reflexivity.
Qed.
